(** * Facts I Learned: the fact feed, the submission form and the vote buttons

    A shallow embedding of [src/App.js].  The React components keep their
    state in [useState] cells; here the cells of [App] and [NewFactForm]
    are fields of one record ([UI]), the cell of each mounted [Fact]
    element is kept in a map by key, and every setter is a function on
    that record.  An [async]
    handler is cut at its single [await]: the part before it returns the
    request that is sent, the part after it is a continuation that receives
    the [{ data, error }] object of the remote store and runs on whatever
    the state is when the answer arrives.

    Conventions.
    - JavaScript strings are [string]; [s.length] is [String.length s].
    - The counters and identifiers are JavaScript numbers holding integers;
      they are modelled by [Z] (exact as long as they stay in the range
      where doubles represent integers exactly).
    - [undefined] as an element of the fact array is [None]; a row is
      [Some f].
    - A thrown [TypeError] is the [Throw] case of [result]. *)

From Stdlib Require Import ZArith Ascii String.
From stdpp Require Import base option list strings sorting gmap.

Local Open Scope string_scope.
Local Open Scope Z_scope.

(** ** Values *)

(** A row of the [facts] table, the [fact] objects of the source. *)
Module Fact.
Record t : Type := mk {
  id : Z;
  text : string;
  source : string;
  category : string;
  votesInteresting : Z;
  votesMindblowing : Z;
  votesFalse : Z
}.
End Fact.

(** An element of the [facts] array: a row, or [undefined]. *)
Abbreviation entry := (option Fact.t).

(** The three column names the vote buttons pass to [handleVote]. *)
Inductive VoteColumn : Type :=
| VotesInteresting
| VotesMindblowing
| VotesFalse.

#[global] Instance VoteColumn_eq_dec : EqDecision VoteColumn.
Proof. solve_decision. Defined.

(** The property key the button passes: the [columnName] string. *)
Definition columnName (c : VoteColumn) : string :=
  match c with
  | VotesInteresting => "votesInteresting"
  | VotesMindblowing => "votesMindblowing"
  | VotesFalse => "votesFalse"
  end.

(** [fact[columnName]] for the three keys above. *)
Definition get_column (c : VoteColumn) (fact : Fact.t) : Z :=
  match c with
  | VotesInteresting => Fact.votesInteresting fact
  | VotesMindblowing => Fact.votesMindblowing fact
  | VotesFalse => Fact.votesFalse fact
  end.

Record Category : Type := mkCategory { name : string; color : string }.

Definition CATEGORIES : list Category :=
  [ mkCategory "technology" "#3b82f6";
    mkCategory "science" "#16a34a";
    mkCategory "finance" "#ef4444";
    mkCategory "society" "#eab308";
    mkCategory "entertainment" "#db2777";
    mkCategory "health" "#14b8a6";
    mkCategory "history" "#f97316";
    mkCategory "news" "#8b5cf6" ].

(** Exceptions and results of code that may throw. *)
Inductive Exn : Type := TypeError.

Inductive result (A : Type) : Type :=
| Ok (a : A)
| Throw (e : Exn).
Arguments Ok {A} a.
Arguments Throw {A} e.

Definition bind {A B : Type} (r : result A) (k : A -> result B) : result B :=
  match r with
  | Ok a => k a
  | Throw e => Throw e
  end.

Notation "x <-! r ; k" := (bind r (fun x => k))
  (at level 100, r at next level, right associativity, only parsing).

(** [Array.prototype.map] with a callback that may throw: the elements are
    visited from index 0 upwards and the first exception aborts the call. *)
Fixpoint array_map {A B : Type} (f : A -> result B) (l : list A) : result (list B) :=
  match l with
  | [] => Ok []
  | x :: l' =>
      y <-! f x;
      ys <-! array_map f l';
      Ok (y :: ys)
  end.

(** Truthiness of a string in a condition: only the empty string is falsy. *)
Definition truthy (s : string) : bool := negb (bool_decide (s = "")).

(** ** Requests to the remote store

    The query builder of the store client only accumulates the parts of one
    HTTP request; the request leaves when the builder is awaited.  A
    [Request] is that accumulated description. *)

Inductive Value : Type :=
| VStr (s : string)
| VNum (n : Z).

Module Draft.
(** The object [{ text, source, category }] handed to [insert]. *)
Record t : Type := mk { text : string; source : string; category : string }.
End Draft.

Inductive Action : Type :=
| Select (columns : string)
| Insert (rows : list Draft.t)
| Update (column : string) (value : Z).

Record Request : Type := mkRequest {
  table : string;
  action : Action;
  filters : list (string * Value);
  returning : bool;
  ordering : option (string * bool);
  limit_to : option nat
}.

(** The builder methods of the store client, in the order the source
    chains them: [supabase.from(t)], then the verb, then the modifiers. *)
Module supabase.
Definition from (t : string) : string := t.

(** [.select(columns)] as the verb of a read. *)
Definition select (columns : string) (t : string) : Request :=
  mkRequest t (Select columns) [] false None None.

(** [.insert(rows)] *)
Definition insert (rows : list Draft.t) (t : string) : Request :=
  mkRequest t (Insert rows) [] false None None.

(** [.update({ [column]: value })] *)
Definition update (column : string) (value : Z) (t : string) : Request :=
  mkRequest t (Update column value) [] false None None.

(** [.eq(column, value)] *)
Definition eq (column : string) (value : Value) (q : Request) : Request :=
  mkRequest (table q) (action q) (filters q ++ [(column, value)])
            (returning q) (ordering q) (limit_to q).

(** [.order(column, { ascending })] *)
Definition order (column : string) (ascending : bool) (q : Request) : Request :=
  mkRequest (table q) (action q) (filters q) (returning q)
            (Some (column, ascending)) (limit_to q).

(** [.limit(n)] *)
Definition limit (n : nat) (q : Request) : Request :=
  mkRequest (table q) (action q) (filters q) (returning q) (ordering q) (Some n).

(** [.select()] chained after [insert] or [update]: ask for the written
    rows back. *)
Definition select_back (q : Request) : Request :=
  mkRequest (table q) (action q) (filters q) true (ordering q) (limit_to q).
End supabase.

(** Method chaining, [q.f(...)]. *)
Notation "q '.>' f" := (f q) (at level 45, left associativity, only parsing).

(** The object every awaited request resolves to.  [error = None] is
    JavaScript [null]; on an error the handlers never read [data]. *)
Record Response : Type := mkResponse {
  data : list Fact.t;
  error : option string
}.

(** ** Component state *)

(** A mounted [Fact] element: the render that mounted it, which tells it
    from an earlier or later element under the same key, and its
    [isUpdating] cell. *)
Record FactElement : Type := mkFactElement {
  mountedAt : nat;
  isUpdating : bool
}.

#[global] Instance FactElement_eq_dec : EqDecision FactElement.
Proof. solve_decision. Defined.

Record UI : Type := mkUI {
  (* App *)
  showForm : bool;
  facts : list entry;
  isLoading : bool;
  currentCategory : string;
  (* NewFactForm *)
  text : string;
  source : string;
  category : string;
  isUploading : bool;
  (* Fact: the mounted elements, by key (fact.id) *)
  factElements : gmap Z FactElement;
  (* the number of renders that changed what is mounted *)
  renderCount : nat;
  (* the messages shown through alert(), latest first *)
  alerts : list string
}.

(** An element of the list that [Fact] renders without throwing. *)
Definition listed (e : entry) : bool :=
  match e with
  | Some f => bool_decide (Fact.category f ∈ name <$> CATEGORIES)
  | None => false
  end.

(** The keys of the [Fact] elements on the page: none while the loader
    stands in for the list, none for a list that does not render, and
    otherwise the [fact.id] of every element of the list. *)
Definition factKeys (loading : bool) (l : list entry) : list Z :=
  if loading || negb (forallb listed l) then []
  else omap (fun e : entry => Fact.id <$> e) l.

(** The elements after a render that shows the keys [keys]: an element
    whose key stays keeps its cell, an element whose key is gone is
    unmounted and its cell lost, and a new key gets a new element with
    [isUpdating] at [false]. *)
Definition remount (stamp : nat) (keys : list Z) (old : gmap Z FactElement)
    : gmap Z FactElement :=
  foldr (fun k m => <[ k := default (mkFactElement stamp false) (old !! k) ]> m) ∅ keys.

Definition setShowForm (b : bool) (s : UI) : UI :=
  mkUI b (facts s) (isLoading s) (currentCategory s)
       (text s) (source s) (category s) (isUploading s)
       (factElements s) (renderCount s) (alerts s).

(** [setFacts(value)], and the render that follows. *)
Definition setFacts (v : list entry) (s : UI) : UI :=
  mkUI (showForm s) v (isLoading s) (currentCategory s)
       (text s) (source s) (category s) (isUploading s)
       (remount (S (renderCount s)) (factKeys (isLoading s) v) (factElements s))
       (S (renderCount s)) (alerts s).

(** [setFacts((facts) => ...)]: the updater is applied to the list the
    state holds at that moment.  An updater that throws takes the whole
    component tree down; that is the [Throw] result. *)
Definition setFactsWith (upd : list entry -> result (list entry)) (s : UI) : result UI :=
  v <-! upd (facts s);
  Ok (setFacts v s).

(** [setIsLoading(value)], and the render that follows: [App] shows
    [Loader] in place of [FactList] while the flag is up. *)
Definition setIsLoading (b : bool) (s : UI) : UI :=
  mkUI (showForm s) (facts s) b (currentCategory s)
       (text s) (source s) (category s) (isUploading s)
       (remount (S (renderCount s)) (factKeys b (facts s)) (factElements s))
       (S (renderCount s)) (alerts s).

Definition setCurrentCategory (c : string) (s : UI) : UI :=
  mkUI (showForm s) (facts s) (isLoading s) c
       (text s) (source s) (category s) (isUploading s)
       (factElements s) (renderCount s) (alerts s).

Definition setText (v : string) (s : UI) : UI :=
  mkUI (showForm s) (facts s) (isLoading s) (currentCategory s)
       v (source s) (category s) (isUploading s)
       (factElements s) (renderCount s) (alerts s).

Definition setSource (v : string) (s : UI) : UI :=
  mkUI (showForm s) (facts s) (isLoading s) (currentCategory s)
       (text s) v (category s) (isUploading s)
       (factElements s) (renderCount s) (alerts s).

Definition setCategory (v : string) (s : UI) : UI :=
  mkUI (showForm s) (facts s) (isLoading s) (currentCategory s)
       (text s) (source s) v (isUploading s)
       (factElements s) (renderCount s) (alerts s).

Definition setIsUploading (b : bool) (s : UI) : UI :=
  mkUI (showForm s) (facts s) (isLoading s) (currentCategory s)
       (text s) (source s) (category s) b
       (factElements s) (renderCount s) (alerts s).

(** [setIsUpdating(b)] called by the [Fact] element that was mounted under
    key [k] by render [me]: it writes the cell of that element, and does
    nothing once that element is unmounted, whatever is mounted under the
    key by then. *)
Definition setIsUpdatingOf (me : option nat) (k : Z) (b : bool) (s : UI) : UI :=
  mkUI (showForm s) (facts s) (isLoading s) (currentCategory s)
       (text s) (source s) (category s) (isUploading s)
       (match me with
        | Some n =>
            if bool_decide (mountedAt <$> factElements s !! k = Some n)
            then <[ k := mkFactElement n b ]> (factElements s)
            else factElements s
        | None => factElements s
        end)
       (renderCount s) (alerts s).

(** [setIsUpdating(b)] called by the element that is mounted under key
    [k] at this moment. *)
Definition setIsUpdating (k : Z) (b : bool) (s : UI) : UI :=
  setIsUpdatingOf (mountedAt <$> factElements s !! k) k b s.

Definition alert (msg : string) (s : UI) : UI :=
  mkUI (showForm s) (facts s) (isLoading s) (currentCategory s)
       (text s) (source s) (category s) (isUploading s)
       (factElements s) (renderCount s) (msg :: alerts s).

(** The state of the first render: the [useState] initial values. *)
Definition initial : UI := mkUI false [] false "all" "" "" "" false ∅ 0 [].

(** ** Asynchronous handlers *)

(** What a handler leaves behind when it returns to the event loop:
    nothing, or one request in flight together with the code that runs
    when it resolves. *)
Inductive Task : Type :=
| Finished
| Awaiting (req : Request) (resume : Response -> UI -> result UI).

Definition handler : Type := UI -> UI * Task.

(** Run a handler to completion against a store that answers at once, with
    no other event in between. *)
Definition settle (remote : Request -> Response) (h : handler) (s : UI) : result UI :=
  match h s with
  | (s1, Finished) => Ok s1
  | (s1, Awaiting req resume) => resume (remote req) s1
  end.

(** ** The components *)

(** The part of a parsed URL the program reads. *)
Record URL : Type := mkURL { protocol : string }.

Section Components.

(** The URL constructor of the browser, [new URL(string)].  It throws a
    [TypeError] when the string is not an absolute URL. *)
Variable URL_new : string -> result URL.

(** *** App *)

(** The effect of [App], run after the first render and after every
    render in which [currentCategory] changed. *)
Definition getFacts : handler := fun s =>
  let s := setIsLoading true s in
  let query := supabase.from "facts" .> supabase.select "*" in
  let query :=
    if bool_decide (currentCategory s ≠ "all")
    then query .> supabase.eq "category" (VStr (currentCategory s))
    else query in
  (s,
   Awaiting (query .> supabase.order "votesInteresting" true .> supabase.limit 100)
     (fun resp s =>
        let s :=
          match error resp with
          | None => setFacts (Some <$> data resp) s
          | Some _ => alert "There was a problem getting data" s
          end in
        Ok (setIsLoading false s))).

(** A click on a button of [CategoryFilter]: the state changes, [App]
    renders again and its effect runs. *)
Definition selectCategory (c : string) : handler := fun s =>
  if bool_decide (currentCategory s = c) then (s, Finished)
  else getFacts (setCurrentCategory c s).

(** *** NewFactForm *)

Definition isValidHttpUrl (string : string) : bool :=
  match URL_new string with
  | Throw _ => false
  | Ok url =>
      bool_decide (protocol url = "http:") || bool_decide (protocol url = "https:")
  end.

(** [e.preventDefault()] only stops the browser from reloading the page
    and touches no state cell; the handler starts at the validity test. *)
Definition handleSubmit : handler := fun s =>
  let textLength := String.length (text s) in
  if truthy (text s) && isValidHttpUrl (source s) && truthy (category s)
     && bool_decide (textLength ≤ 1000)%nat
  then
    (setIsUploading true s,
     Awaiting (supabase.from "facts"
                 .> supabase.insert [Draft.mk (text s) (source s) (category s)]
                 .> supabase.select_back)
       (fun resp s =>
          let newFact := data resp in
          let s := setIsUploading false s in
          s <-! match error resp with
                | None => setFactsWith (fun facts => Ok (newFact !! 0%nat :: facts)) s
                | Some _ => Ok s
                end;
          let s := setText "" s in
          let s := setSource "" s in
          let s := setCategory "" s in
          Ok (setShowForm false s)))
  else (s, Finished).

(** *** Fact *)

Definition isDisputed (fact : Fact.t) : bool :=
  Fact.votesInteresting fact + Fact.votesMindblowing fact <? Fact.votesFalse fact.

(** [setIsUpdating] is the setter of the element the click came from:
    [me] is that element, the one mounted under [fact.id] when the handler
    starts. *)
Definition handleVote (fact : Fact.t) (c : VoteColumn) : handler := fun s =>
  let me := mountedAt <$> factElements s !! Fact.id fact in
  (setIsUpdating (Fact.id fact) true s,
   Awaiting (supabase.from "facts"
               .> supabase.update (columnName c) (get_column c fact + 1)
               .> supabase.eq "id" (VNum (Fact.id fact))
               .> supabase.select_back)
     (fun resp s =>
        let updatedFact := data resp in
        let s := setIsUpdatingOf me (Fact.id fact) false s in
        match error resp with
        | None =>
            setFactsWith
              (array_map (fun f : entry =>
                 match f with
                 | None => Throw TypeError
                 | Some f' =>
                     Ok (if bool_decide (Fact.id f' = Fact.id fact)
                         then updatedFact !! 0%nat
                         else f)
                 end)) s
        | Some _ => Ok s
        end)).

(** What one [Fact] element shows. *)
Record FactView : Type := mkFactView {
  disputed_badge : bool;
  shown_text : string;
  href : string;
  tag_color : string;
  tag_text : string;
  button_labels : Z * Z * Z;
  buttons_disabled : bool
}.

(** The JSX returned by [Fact].  [CATEGORIES.find(...)] gives [undefined]
    when no entry has the name, and reading [.color] of it throws. *)
Definition render_Fact (fact : Fact.t) (s : UI) : result FactView :=
  let disputed := isDisputed fact in
  tag <-! match find (fun cat => bool_decide (name cat = Fact.category fact)) CATEGORIES with
          | Some cat => Ok (color cat)
          | None => Throw TypeError
          end;
  Ok (mkFactView disputed (Fact.text fact) (Fact.source fact) tag (Fact.category fact)
        (Fact.votesInteresting fact, Fact.votesMindblowing fact, Fact.votesFalse fact)
        (default false (isUpdating <$> factElements s !! Fact.id fact))).

(** *** FactList *)

Inductive FactListView : Type :=
| NoFacts
| Listing (items : list FactView) (count : nat).

(** [fact.id] for the key throws on an [undefined] element. *)
Definition render_FactList (s : UI) : result FactListView :=
  if bool_decide (length (facts s) = 0%nat) then Ok NoFacts
  else
    items <-! array_map (fun f : entry =>
                match f with
                | None => Throw TypeError
                | Some fact => render_Fact fact s
                end) (facts s);
    Ok (Listing items (length (facts s))).

End Components.

(** ** The remote store *)

Module Store.

(** The remote table and the identifier the next inserted row gets. *)
Record t : Type := mk { rows : list Fact.t; next_id : Z }.

Definition read_column (col : string) (f : Fact.t) : option Value :=
  if bool_decide (col = "id") then Some (VNum (Fact.id f))
  else if bool_decide (col = "text") then Some (VStr (Fact.text f))
  else if bool_decide (col = "source") then Some (VStr (Fact.source f))
  else if bool_decide (col = "category") then Some (VStr (Fact.category f))
  else if bool_decide (col = "votesInteresting") then Some (VNum (Fact.votesInteresting f))
  else if bool_decide (col = "votesMindblowing") then Some (VNum (Fact.votesMindblowing f))
  else if bool_decide (col = "votesFalse") then Some (VNum (Fact.votesFalse f))
  else None.

Definition number_column (col : string) : option (Fact.t -> Z) :=
  if bool_decide (col = "id") then Some Fact.id
  else if bool_decide (col = "votesInteresting") then Some Fact.votesInteresting
  else if bool_decide (col = "votesMindblowing") then Some Fact.votesMindblowing
  else if bool_decide (col = "votesFalse") then Some Fact.votesFalse
  else None.

Definition write_column (col : string) (v : Z) : option (Fact.t -> Fact.t) :=
  if bool_decide (col = "votesInteresting") then
    Some (fun f => Fact.mk (Fact.id f) (Fact.text f) (Fact.source f) (Fact.category f)
                     v (Fact.votesMindblowing f) (Fact.votesFalse f))
  else if bool_decide (col = "votesMindblowing") then
    Some (fun f => Fact.mk (Fact.id f) (Fact.text f) (Fact.source f) (Fact.category f)
                     (Fact.votesInteresting f) v (Fact.votesFalse f))
  else if bool_decide (col = "votesFalse") then
    Some (fun f => Fact.mk (Fact.id f) (Fact.text f) (Fact.source f) (Fact.category f)
                     (Fact.votesInteresting f) (Fact.votesMindblowing f) v)
  else None.

#[global] Instance Value_eq_dec : EqDecision Value.
Proof. solve_decision. Defined.

(** A row passes when every [eq] filter holds of it. *)
Definition passes (fs : list (string * Value)) (f : Fact.t) : bool :=
  forallb (fun flt => bool_decide (read_column flt.1 f = Some flt.2)) fs.

Definition ordered_by (key : Fact.t -> Z) (ascending : bool) (a b : Fact.t) : Prop :=
  if ascending then key a ≤ key b else key b ≤ key a.

#[global] Instance ordered_by_dec key ascending a b :
  Decision (ordered_by key ascending a b).
Proof. unfold ordered_by. destruct ascending; apply _. Defined.

Definition sort_rows (o : option (string * bool)) (l : list Fact.t) : option (list Fact.t) :=
  match o with
  | None => Some l
  | Some (col, ascending) =>
      key ← number_column col;
      Some (merge_sort (ordered_by key ascending) l)
  end.

Definition cap (n : option nat) (l : list Fact.t) : list Fact.t :=
  match n with
  | None => l
  | Some n => take n l
  end.

(** New rows get consecutive identifiers and counters at zero. *)
Fixpoint create (next : Z) (drafts : list Draft.t) : list Fact.t :=
  match drafts with
  | [] => []
  | d :: drafts' =>
      Fact.mk next (Draft.text d) (Draft.source d) (Draft.category d) 0 0 0
      :: create (next + 1) drafts'
  end.

Definition refuse (msg : string) (st : t) : Response * t :=
  (mkResponse [] (Some msg), st).

(** Modelled from the spec: the remote store is an external service; the
    three request shapes of the external interface are given their
    meaning on a table.  A read keeps the rows that pass the filters,
    orders them and cuts the result at the limit.  An insert appends the
    new rows.  An update writes one column of every row that passes the
    filters.  A write answers with the written rows when they were asked
    back.  A request that names another table or an unknown column is
    answered with an error and changes nothing. *)
Definition exec (st : t) (q : Request) : Response * t :=
  if negb (bool_decide (table q = "facts")) then refuse "unknown table" st
  else if negb (forallb (fun flt => bool_decide (is_Some (number_column flt.1))
                                  || bool_decide (flt.1 ∈ ["text"; "source"; "category"]))
                  (filters q))
  then refuse "unknown column" st
  else
    match action q with
    | Select _ =>
        match sort_rows (ordering q) (filter (fun f => passes (filters q) f = true) (rows st)) with
        | Some l => (mkResponse (cap (limit_to q) l) None, st)
        | None => refuse "unknown column" st
        end
    | Insert drafts =>
        let new := create (next_id st) drafts in
        (mkResponse (if returning q then new else []) None,
         mk (rows st ++ new) (next_id st + Z.of_nat (length drafts)))
    | Update col v =>
        match write_column col v with
        | Some w =>
            (mkResponse (if returning q
                         then w <$> filter (fun f => passes (filters q) f = true) (rows st)
                         else []) None,
             mk ((fun f => if passes (filters q) f then w f else f) <$> rows st)
                (next_id st))
        | None => refuse "unknown column" st
        end
    end.

(** The store as the answering side of [settle]. *)
Definition answer (st : t) (q : Request) : Response := (exec st q).1.

End Store.

(** ** A URL parser to run the form on concrete input

    The browser's parser is a parameter of [handleSubmit].  The examples
    need one to compute with: this one reads the scheme only.  It accepts
    [scheme:rest] with a scheme made of a letter followed by letters,
    digits, [+], [-] or [.] and a non-empty rest, and reports the scheme in
    lower case followed by a colon, as [url.protocol] does. *)
Module SampleBrowser.

Definition in_range (lo hi : nat) (a : ascii) : bool :=
  let n := nat_of_ascii a in ((lo <=? n) && (n <=? hi))%nat.

Definition is_letter (a : ascii) : bool := in_range 65 90 a || in_range 97 122 a.

Definition is_scheme_char (a : ascii) : bool :=
  is_letter a || in_range 48 57 a
  || bool_decide (a = "+"%char) || bool_decide (a = "-"%char) || bool_decide (a = "."%char).

Definition lower (a : ascii) : ascii :=
  if in_range 65 90 a then ascii_of_nat (nat_of_ascii a + 32) else a.

(** The text before the first colon and the text after it. *)
Fixpoint split_scheme (s : string) : option (string * string) :=
  match s with
  | EmptyString => None
  | String a rest =>
      if bool_decide (a = ":"%char) then Some (EmptyString, rest)
      else
        match split_scheme rest with
        | Some (scheme, tail) => Some (String a scheme, tail)
        | None => None
        end
  end.

Fixpoint string_forall (p : ascii -> bool) (s : string) : bool :=
  match s with
  | EmptyString => true
  | String a rest => p a && string_forall p rest
  end.

Fixpoint string_map (f : ascii -> ascii) (s : string) : string :=
  match s with
  | EmptyString => EmptyString
  | String a rest => String (f a) (string_map f rest)
  end.

Definition URL_new (s : string) : result URL :=
  match split_scheme s with
  | Some (String a scheme, String _ _) =>
      if is_letter a && string_forall is_scheme_char scheme
      then Ok (mkURL (string_map lower (String a scheme) +:+ ":"))
      else Throw TypeError
  | _ => Throw TypeError
  end.

End SampleBrowser.

(** ** The rest of the page: header, form, filter and the page as a whole *)

(** *** Header *)

Record HeaderView : Type := mkHeaderView {
  appTitle : string;
  button_label : string
}.

Definition render_Header (s : UI) : HeaderView :=
  mkHeaderView "Facts I Learned" (if showForm s then "❌ Close" else "Share a fact").

(** [NewFactForm] keeps its four cells in itself and [App] renders it only
    while [showForm] holds: each time the form appears, the cells start
    again from their [useState] initial values. *)
Definition mount_NewFactForm (s : UI) : UI :=
  setIsUploading false (setCategory "" (setSource "" (setText "" s))).

(** The click on the header button, [setShowForm((show) => !show)],
    followed by the render it causes. *)
Definition toggleForm (s : UI) : UI :=
  let s := setShowForm (negb (showForm s)) s in
  if showForm s then mount_NewFactForm s else s.

(** *** CategoryFilter *)

Record FilterButton : Type := mkFilterButton {
  filter_label : string;
  filter_color : option string;
  (* the argument of setCurrentCategory in onClick *)
  filter_selects : string
}.

Definition render_CategoryFilter : list FilterButton :=
  mkFilterButton "All" None "all"
  :: map (fun cat => mkFilterButton (name cat) (Some (color cat)) (name cat)) CATEGORIES.

Section Views.

(** [String.prototype.toUpperCase] of the browser. *)
Variable toUpperCase : string -> string.

(** *** NewFactForm *)

Record OptionView : Type := mkOptionView {
  option_value : string;
  option_label : string
}.

Record FormView : Type := mkFormView {
  text_value : string;
  (* the number in the span, 1000 - textLength *)
  remaining : Z;
  source_value : string;
  category_value : string;
  options : list OptionView;
  (* disabled={isUploading} on the three inputs and the button *)
  form_disabled : bool
}.

Definition render_NewFactForm (s : UI) : FormView :=
  let textLength := String.length (text s) in
  mkFormView (text s) (1000 - Z.of_nat textLength) (source s) (category s)
    (mkOptionView "" "Choose category:"
     :: map (fun cat => mkOptionView (name cat) (toUpperCase (name cat))) CATEGORIES)
    (isUploading s).

(** *** App *)

Inductive MainView : Type :=
| ShowLoader (message : string)
| ShowList (list_view : FactListView).

Record AppView : Type := mkAppView {
  header_view : HeaderView;
  form_view : option FormView;
  filter_view : list FilterButton;
  main_view : MainView
}.

(** The JSX returned by [App]: the elements are built in document order,
    so a list that throws takes the whole page down, but only when the
    loader is not shown in its place. *)
Definition render_App (s : UI) : result AppView :=
  let header := render_Header s in
  let form := if showForm s then Some (render_NewFactForm s) else None in
  main <-! (if isLoading s then Ok (ShowLoader "Loading...")
            else (v <-! render_FactList s; Ok (ShowList v)));
  Ok (mkAppView header form render_CategoryFilter main).

End Views.

(** A stand-in for [toUpperCase] on the letters a to z, to run the form on
    concrete input. *)
Definition ascii_upper (s : string) : string :=
  SampleBrowser.string_map
    (fun a => if SampleBrowser.in_range 97 122 a
              then ascii_of_nat (nat_of_ascii a - 32) else a) s.

(** * Vocabulary of the properties *)

(** The record [fact] with counter [c] set to [v]. *)
Definition with_column (c : VoteColumn) (v : Z) (f : Fact.t) : Fact.t :=
  match c with
  | VotesInteresting =>
      Fact.mk (Fact.id f) (Fact.text f) (Fact.source f) (Fact.category f)
              v (Fact.votesMindblowing f) (Fact.votesFalse f)
  | VotesMindblowing =>
      Fact.mk (Fact.id f) (Fact.text f) (Fact.source f) (Fact.category f)
              (Fact.votesInteresting f) v (Fact.votesFalse f)
  | VotesFalse =>
      Fact.mk (Fact.id f) (Fact.text f) (Fact.source f) (Fact.category f)
              (Fact.votesInteresting f) (Fact.votesMindblowing f) v
  end.

(** What the patch of [handleVote] makes of one element of the list. *)
Definition patched (fact : Fact.t) (new : entry) (e : entry) : entry :=
  match e with
  | Some f => if bool_decide (Fact.id f = Fact.id fact) then new else Some f
  | None => None
  end.

(** The rows of category [c] (all rows for ["all"]) in ascending order of
    [votesInteresting], cut at 100. *)
Definition fetched (c : string) (st : Store.t) : list Fact.t :=
  take 100 (merge_sort (Store.ordered_by Fact.votesInteresting true)
              (filter (fun f => c = "all" \/ Fact.category f = c) (Store.rows st))).

(** The source is an absolute URL whose scheme is http or https. *)
Definition http_source (URL_new : string -> result URL) (src : string) : Prop :=
  exists url, URL_new src = Ok url
              /\ (protocol url = "http:" \/ protocol url = "https:").

(** ** The page and its store, one action at a time *)

Record System : Type := mkSystem { page : UI; store : Store.t }.

(** A handler run against the reference store: the request it sends is
    executed and the answer is handed to the handler straight away. *)
Definition run (h : handler) (sys : System) : result System :=
  match h (page sys) with
  | (s1, Finished) => Ok (mkSystem s1 (store sys))
  | (s1, Awaiting q resume) =>
      s2 <-! resume (Store.exec (store sys) q).1 s1;
      Ok (mkSystem s2 (Store.exec (store sys) q).2)
  end.

(** The identifiers of the table are unique and below the next one to be
    given out, and every element of the list is a row of the table. *)
Definition in_sync (sys : System) : Prop :=
  NoDup (Fact.id <$> Store.rows (store sys))
  /\ (forall f, f ∈ Store.rows (store sys) -> Fact.id f < Store.next_id (store sys))
  /\ (forall e : entry, e ∈ facts (page sys) ->
        exists f, e = Some f /\ f ∈ Store.rows (store sys)).



(** ** The page, the store and the requests between them

    Nothing in the source cancels a request or makes one wait for another:
    a request travels to the store, is executed there, and its answer
    travels back, each at its own time, while the user goes on clicking. *)















(** ** Sample data *)

Definition bats : Fact.t :=
  Fact.mk 7 "Bats are blind" "https://example.com" "science" 4 1 2.

Definition moon : Fact.t :=
  Fact.mk 3 "The Moon has quakes" "https://example.org/moon" "science" 9 5 0.

Definition coins : Fact.t :=
  Fact.mk 5 "Coins outlast notes" "http://example.net/coins" "finance" 1 0 6.

Definition sample_store : Store.t := Store.mk [moon; coins; bats] 8.

(** A page that shows three facts, with the form open and filled in. *)
Definition sample_page : UI :=
  mkUI true [Some coins; Some bats; Some moon] false "all"
       "Bats are blind" "https://example.com" "science" false
       (remount 0 [5; 7; 3] ∅) 0 [].

Definition offline : Response := mkResponse [] (Some "FetchError").

Definition long_text : string := string_of_list_ascii (replicate 1001 "a"%char).

Definition inserted : Fact.t :=
  Fact.mk 8 "Bats are blind" "https://example.com" "science" 0 0 0.




(** A row whose category is not in [CATEGORIES]. *)
Definition stray : Fact.t :=
  Fact.mk 11 "Chess is a sport" "https://example.com/chess" "sports" 0 0 0.

(** * Properties *)

(** ** Exceptions *)

Lemma array_map_Ok_length {A B : Type} (f : A -> result B) (l : list A) (l' : list B) :
  array_map f l = Ok l' -> length l' = length l.
Proof.
  revert l'. induction l as [|x l IH]; intros l' H; simpl in H.
  - by inversion H.
  - destruct (f x) as [y|e]; simpl in H; [|discriminate].
    destruct (array_map f l) as [ys|e]; simpl in H; [|discriminate].
    inversion H; subst. simpl. f_equal. by apply IH.
Qed.

Lemma array_map_Ok_lookup {A B : Type} (f : A -> result B) (l : list A) (l' : list B)
    (i : nat) (x : A) :
  array_map f l = Ok l' -> l !! i = Some x ->
  exists y, f x = Ok y /\ l' !! i = Some y.
Proof.
  revert l' i. induction l as [|a l IH]; intros l' i H Hi; [done|].
  simpl in H.
  destruct (f a) as [b|e] eqn:Ha; simpl in H; [|discriminate].
  destruct (array_map f l) as [ys|e]; simpl in H; [|discriminate].
  inversion H; subst. destruct i as [|i]; simpl in *.
  - inversion Hi; subst. eauto.
  - by apply IH.
Qed.

(** The map goes through when the callback does on every element. *)
Lemma array_map_total {A B : Type} (f : A -> result B) (l : list A) :
  Forall (fun x => exists y, f x = Ok y) l -> exists l', array_map f l = Ok l'.
Proof.
  induction 1 as [|x l [y Hy] _ [l' IH]]; simpl.
  - by exists [].
  - rewrite Hy, IH. simpl. eauto.
Qed.

(** One throwing element makes the whole map throw. *)
Lemma array_map_Throw {A B : Type} (f : A -> result B) (l : list A) (x : A) :
  x ∈ l -> f x = Throw TypeError -> array_map f l = Throw TypeError.
Proof.
  intros Hin Hx. induction Hin as [x l|x a l _ IH]; simpl.
  - by rewrite Hx.
  - destruct (f a) as [b|[]]; simpl; [|done]. by rewrite (IH Hx).
Qed.

(** ** Rendering *)

Lemma find_category_None (c : string) :
  c ∉ name <$> CATEGORIES ->
  find (fun cat => bool_decide (name cat = c)) CATEGORIES = None.
Proof.
  intros Hc. destruct (find _ CATEGORIES) as [cat|] eqn:Hf; [|done].
  apply find_some in Hf as [Hin Hn]. apply bool_decide_eq_true in Hn. subst c.
  exfalso. apply Hc. apply list_elem_of_fmap. exists cat. split; [done|].
  by apply list_elem_of_In.
Qed.

Lemma find_category_Some (c : string) :
  c ∈ name <$> CATEGORIES ->
  exists cat, find (fun cat => bool_decide (name cat = c)) CATEGORIES = Some cat
              /\ name cat = c /\ cat ∈ CATEGORIES.
Proof.
  intros Hc. destruct (find _ CATEGORIES) as [cat|] eqn:Hf.
  - apply find_some in Hf as [Hin Hn]. apply bool_decide_eq_true in Hn.
    exists cat. by rewrite list_elem_of_In.
  - apply list_elem_of_fmap in Hc as (cat & -> & Hin).
    apply list_elem_of_In in Hin.
    pose proof (find_none _ _ Hf _ Hin) as Hn. simpl in Hn.
    by apply bool_decide_eq_false in Hn.
Qed.

(** C1: a fact is shown as disputed exactly when its interesting and
    mind-blowing votes together are fewer than its false votes.  The flag is
    not a field of the record: every render that shows the fact computes the
    badge from the three counters of the record it is given, and two records
    with the same three counters are classified alike. *)
Theorem disputed_iff_votes (fact : Fact.t) :
  (isDisputed fact = true <->
     Fact.votesInteresting fact + Fact.votesMindblowing fact < Fact.votesFalse fact)
  /\ (forall (s : UI) (v : FactView),
        render_Fact fact s = Ok v ->
        (disputed_badge v = true <->
           Fact.votesInteresting fact + Fact.votesMindblowing fact < Fact.votesFalse fact))
  /\ (forall fact' : Fact.t,
        Fact.votesInteresting fact' = Fact.votesInteresting fact ->
        Fact.votesMindblowing fact' = Fact.votesMindblowing fact ->
        Fact.votesFalse fact' = Fact.votesFalse fact ->
        isDisputed fact' = isDisputed fact).
Proof.
  split; [|split].
  - unfold isDisputed. apply Z.ltb_lt.
  - intros s v H. unfold render_Fact in H.
    destruct (find _ CATEGORIES); simpl in H; [|discriminate].
    inversion H; subst; simpl. unfold isDisputed. apply Z.ltb_lt.
  - intros fact' H1 H2 H3. unfold isDisputed. by rewrite H1, H2, H3.
Qed.

(** C10: the tag colour is read off the entry that [CATEGORIES] has for the
    category of the fact, with no guard.  The table has eight names.  A fact
    renders exactly when its category is one of them; otherwise the lookup
    finds nothing, rendering the fact throws a [TypeError], and so does
    rendering any list that holds the fact.  Nothing keeps such a row out:
    a fetch puts whatever rows the store returns into the list. *)
Theorem render_needs_listed_category (fact : Fact.t) (s : UI) :
  name <$> CATEGORIES =
    ["technology"; "science"; "finance"; "society";
     "entertainment"; "health"; "history"; "news"]
  /\ (Fact.category fact ∈ name <$> CATEGORIES <->
        exists v, render_Fact fact s = Ok v)
  /\ (Fact.category fact ∉ name <$> CATEGORIES <->
        render_Fact fact s = Throw TypeError)
  /\ (Fact.category fact ∉ name <$> CATEGORIES ->
        find (fun cat => bool_decide (name cat = Fact.category fact)) CATEGORIES = None
        /\ forall s' : UI, Some fact ∈ facts s' -> render_FactList s' = Throw TypeError)
  /\ (forall (resp : Response) (s' : UI),
        error resp = None -> fact ∈ data resp ->
        exists q resume s'',
          getFacts s = (setIsLoading true s, Awaiting q resume)
          /\ resume resp s' = Ok s'' /\ Some fact ∈ facts s'').
Proof.
  assert (Hthrow : Fact.category fact ∉ name <$> CATEGORIES ->
                   render_Fact fact s = Throw TypeError).
  { intros Hc. unfold render_Fact. by rewrite (find_category_None _ Hc). }
  assert (Hok : Fact.category fact ∈ name <$> CATEGORIES ->
                exists v, render_Fact fact s = Ok v).
  { intros Hc. destruct (find_category_Some _ Hc) as (cat & Hf & _).
    unfold render_Fact. rewrite Hf. simpl. eauto. }
  split; [reflexivity|]. split; [|split; [|split]].
  - split; [done|]. intros [v Hv].
    destruct (decide (Fact.category fact ∈ name <$> CATEGORIES)) as [|Hn]; [done|].
    rewrite (Hthrow Hn) in Hv. discriminate.
  - split; [done|]. intros Ht Hin. destruct (Hok Hin) as [v Hv]. congruence.
  - intros Hc. split; [by apply find_category_None|].
    intros s' Hin. unfold render_FactList.
    destruct (facts s') as [|e l] eqn:Hl; [by apply elem_of_nil in Hin|].
    rewrite bool_decide_eq_false_2 by done.
    rewrite (array_map_Throw _ _ (Some fact) Hin); [done|].
    unfold render_Fact. by rewrite (find_category_None _ Hc).
  - intros resp s' He Hin. eexists _, _, _. split; [reflexivity|].
    simpl. rewrite He. split; [reflexivity|]. simpl.
    apply list_elem_of_fmap. eauto.
Qed.

(** ** The feed *)

(** The request [getFacts] sends for the selected category. *)
Lemma getFacts_request (s : UI) :
  exists resume,
    getFacts s =
      (setIsLoading true s,
       Awaiting (mkRequest "facts" (Select "*")
                   (if bool_decide (currentCategory s = "all") then []
                    else [("category", VStr (currentCategory s))])
                   false (Some ("votesInteresting", true)) (Some 100%nat))
                resume)
    /\ (forall resp s',
          resume resp s' =
            Ok (setIsLoading false
                  match error resp with
                  | None => setFacts (Some <$> data resp) s'
                  | Some _ => alert "There was a problem getting data" s'
                  end)).
Proof.
  eexists. split; [|reflexivity].
  unfold getFacts. destruct (decide (currentCategory s = "all")) as [Heq|Hne].
  - rewrite (bool_decide_eq_false_2 (currentCategory s ≠ "all")) by tauto.
    by rewrite (bool_decide_eq_true_2 _ Heq).
  - rewrite (bool_decide_eq_true_2 _ Hne).
    by rewrite (bool_decide_eq_false_2 _ Hne).
Qed.

(** C3: when the fetch ends in an error, the alert is raised, the list is
    the one the state held when the answer arrived, and the loading flag is
    down.  The flag is up in the state the handler leaves while the request
    is in flight, and it is down after every answer, error or not. *)
Theorem getFacts_error_alerts_and_clears_loading
    (s s' : UI) (resp : Response) (e : string) :
  error resp = Some e ->
  exists q resume s'',
    getFacts s = (setIsLoading true s, Awaiting q resume)
    /\ isLoading (setIsLoading true s) = true
    /\ facts (setIsLoading true s) = facts s
    /\ resume resp s' = Ok s''
    /\ alerts s'' = "There was a problem getting data" :: alerts s'
    /\ facts s'' = facts s'
    /\ isLoading s'' = false
    /\ (forall (resp0 : Response) (s0 : UI),
          exists s1, resume resp0 s0 = Ok s1 /\ isLoading s1 = false)
    /\ (forall remote : Request -> Response,
          remote q = resp ->
          exists s3, settle remote getFacts s = Ok s3
                     /\ facts s3 = facts s /\ isLoading s3 = false
                     /\ alerts s3 = "There was a problem getting data" :: alerts s).
Proof.
  intros He. destruct (getFacts_request s) as (resume & Hg & Hr).
  eexists _, resume, _. split; [exact Hg|].
  split; [reflexivity|]. split; [reflexivity|].
  split; [rewrite Hr, He; reflexivity|].
  split; [reflexivity|]. split; [reflexivity|]. split; [reflexivity|]. split.
  - intros resp0 s0. eexists. rewrite Hr. split; reflexivity.
  - intros remote Hq. eexists. unfold settle. rewrite Hg, Hq, Hr, He.
    split; [reflexivity|]. by repeat split.
Qed.

(** ** The submission form *)

Section Form.

Variable URL_new : string -> result URL.

Lemma isValidHttpUrl_spec (src : string) :
  isValidHttpUrl URL_new src = true <-> http_source URL_new src.
Proof.
  unfold isValidHttpUrl, http_source. destruct (URL_new src) as [url|e].
  - rewrite orb_true_iff, !bool_decide_eq_true. split.
    + intros H. by exists url.
    + intros (url' & Heq & H). by inversion Heq; subst.
  - split; [discriminate|]. by intros (url & Heq & _).
Qed.

Lemma truthy_spec (v : string) : truthy v = true <-> v <> "".
Proof.
  unfold truthy. rewrite negb_true_iff, bool_decide_eq_false. tauto.
Qed.

(** The test that guards the insert. *)
Lemma submit_test_spec (s : UI) :
  truthy (text s) && isValidHttpUrl URL_new (source s) && truthy (category s)
    && bool_decide (String.length (text s) <= 1000)%nat = true
  <-> text s <> "" /\ http_source URL_new (source s) /\ category s <> ""
      /\ (String.length (text s) <= 1000)%nat.
Proof.
  rewrite !andb_true_iff, !truthy_spec, isValidHttpUrl_spec, bool_decide_eq_true.
  tauto.
Qed.

(** C4: when the text is empty, or the source is not an absolute http or
    https URL, or the category is empty, or the text is longer than 1000
    characters, the handler sends nothing and returns the state it was
    given: the list, the three fields, the form flag and the alerts are
    what they were. *)
Theorem handleSubmit_invalid_is_noop (s : UI) :
  text s = "" \/ ~ http_source URL_new (source s) \/ category s = ""
  \/ (1000 < String.length (text s))%nat ->
  handleSubmit URL_new s = (s, Finished)
  /\ (forall remote : Request -> Response,
        settle remote (handleSubmit URL_new) s = Ok s).
Proof.
  intros Hbad.
  assert (Hg : handleSubmit URL_new s = (s, Finished)).
  { unfold handleSubmit.
    destruct (truthy (text s) && isValidHttpUrl URL_new (source s)
              && truthy (category s)
              && bool_decide (String.length (text s) <= 1000)%nat) eqn:Htest;
      [|reflexivity].
    apply submit_test_spec in Htest as (Ht & Hs & Hc & Hl).
    exfalso. destruct Hbad as [H|[H|[H|H]]]; [done|done|done|lia]. }
  split; [exact Hg|]. intros remote. unfold settle. by rewrite Hg.
Qed.

(** The request a valid submission sends. *)
Lemma handleSubmit_valid (s : UI) :
  text s <> "" -> http_source URL_new (source s) -> category s <> "" ->
  (String.length (text s) <= 1000)%nat ->
  exists resume,
    handleSubmit URL_new s =
      (setIsUploading true s,
       Awaiting (mkRequest "facts"
                   (Insert [Draft.mk (text s) (source s) (category s)])
                   [] true None None)
                resume)
    /\ (forall resp s',
          resume resp s' =
            Ok (setShowForm false (setCategory "" (setSource "" (setText ""
                  match error resp with
                  | None => setFacts (data resp !! 0%nat :: facts s')
                                     (setIsUploading false s')
                  | Some _ => setIsUploading false s'
                  end))))).
Proof.
  intros Ht Hs Hc Hl. eexists. unfold handleSubmit.
  rewrite (proj2 (submit_test_spec s)) by done.
  split; [reflexivity|]. intros resp s'. simpl. by destruct (error resp).
Qed.

(** C5: a submission that passes the four tests sends one insert of
    [{text, source, category}] and asks the row back; when the store
    answers without error with a row, that row becomes element 0 of the
    list and the former elements follow in their order, the three fields
    are empty and the form is closed.  Against the reference store the
    row carries the identifier the store assigned and counters at zero. *)
Theorem handleSubmit_success_prepends
    (s s' : UI) (resp : Response) (row : Fact.t) (rest : list Fact.t) :
  text s <> "" -> http_source URL_new (source s) -> category s <> "" ->
  (String.length (text s) <= 1000)%nat ->
  error resp = None -> data resp = row :: rest ->
  exists resume s'',
    handleSubmit URL_new s =
      (setIsUploading true s,
       Awaiting (mkRequest "facts"
                   (Insert [Draft.mk (text s) (source s) (category s)])
                   [] true None None)
                resume)
    /\ resume resp s' = Ok s''
    /\ facts s'' = Some row :: facts s'
    /\ text s'' = "" /\ source s'' = "" /\ category s'' = ""
    /\ showForm s'' = false
    /\ (forall st : Store.t,
          exists s3, settle (Store.answer st) (handleSubmit URL_new) s = Ok s3
            /\ facts s3 =
                 Some (Fact.mk (Store.next_id st) (text s) (source s) (category s) 0 0 0)
                 :: facts s
            /\ text s3 = "" /\ source s3 = "" /\ category s3 = ""
            /\ showForm s3 = false).
Proof.
  intros Ht Hs Hc Hl He Hd.
  destruct (handleSubmit_valid s Ht Hs Hc Hl) as (resume & Hg & Hr).
  eexists resume, _. split; [exact Hg|]. split; [apply Hr|].
  rewrite He, Hd. simpl. repeat (split; [reflexivity|]).
  intros st. eexists. unfold settle. rewrite Hg, Hr. split; [reflexivity|].
  by repeat split.
Qed.

(** C6: a submission that passes the four tests and whose insert fails
    leaves the list as it was when the answer arrived and raises no
    alert; the three fields are emptied and the form is closed all the
    same. *)
Theorem handleSubmit_failure_still_clears
    (s s' : UI) (resp : Response) (e : string) :
  text s <> "" -> http_source URL_new (source s) -> category s <> "" ->
  (String.length (text s) <= 1000)%nat ->
  error resp = Some e ->
  exists q resume s'',
    handleSubmit URL_new s = (setIsUploading true s, Awaiting q resume)
    /\ resume resp s' = Ok s''
    /\ facts s'' = facts s'
    /\ alerts s'' = alerts s'
    /\ text s'' = "" /\ source s'' = "" /\ category s'' = ""
    /\ showForm s'' = false
    /\ (forall remote : Request -> Response,
          remote q = resp ->
          exists s3, settle remote (handleSubmit URL_new) s = Ok s3
            /\ facts s3 = facts s /\ alerts s3 = alerts s
            /\ text s3 = "" /\ source s3 = "" /\ category s3 = ""
            /\ showForm s3 = false).
Proof.
  intros Ht Hs Hc Hl He.
  destruct (handleSubmit_valid s Ht Hs Hc Hl) as (resume & Hg & Hr).
  eexists _, resume, _. split; [exact Hg|]. split; [apply Hr|].
  rewrite He. simpl. repeat (split; [reflexivity|]).
  intros remote Hq. eexists. unfold settle. rewrite Hg, Hq, Hr, He.
  split; [reflexivity|]. by repeat split.
Qed.

End Form.

(** ** The reference store *)

#[local] Instance ordered_by_trans key ascending :
  Transitive (Store.ordered_by key ascending).
Proof. intros a b c. unfold Store.ordered_by. destruct ascending; lia. Qed.

#[local] Instance ordered_by_total key ascending :
  Total (Store.ordered_by key ascending).
Proof. intros a b. unfold Store.ordered_by. destruct ascending; lia. Qed.

Lemma StronglySorted_take {A : Type} (R : relation A) (n : nat) (l : list A) :
  StronglySorted R l -> StronglySorted R (take n l).
Proof.
  intros H. rewrite <- (take_drop n l) in H.
  by apply StronglySorted_app_1_l in H.
Qed.

Lemma passes_category (c : string) (f : Fact.t) :
  Store.passes [("category", VStr c)] f = true <-> Fact.category f = c.
Proof.
  unfold Store.passes. simpl. rewrite andb_true_r, bool_decide_eq_true.
  change (Store.read_column "category" f) with (Some (VStr (Fact.category f))).
  split; [intros [= H]; exact H|intros H; by rewrite H].
Qed.

Lemma passes_id (i : Z) (f : Fact.t) :
  Store.passes [("id", VNum i)] f = true <-> Fact.id f = i.
Proof.
  unfold Store.passes. simpl. rewrite andb_true_r, bool_decide_eq_true.
  change (Store.read_column "id" f) with (Some (VNum (Fact.id f))).
  split; [intros [= H]; exact H|intros H; by rewrite H].
Qed.

(** What the reference store answers to the read of [getFacts]. *)
Lemma Store_read (st : Store.t) (fs : list (string * Value)) :
  forallb (fun flt => bool_decide (is_Some (Store.number_column flt.1))
                      || bool_decide (flt.1 ∈ ["text"; "source"; "category"])) fs = true ->
  Store.exec st (mkRequest "facts" (Select "*") fs false
                   (Some ("votesInteresting", true)) (Some 100%nat))
  = (mkResponse
       (take 100 (merge_sort (Store.ordered_by Fact.votesInteresting true)
                    (filter (fun f => Store.passes fs f = true) (Store.rows st))))
       None,
     st).
Proof.
  intros Hfs. unfold Store.exec. simpl. by rewrite Hfs.
Qed.

Lemma Store_getFacts (c : string) (st : Store.t) :
  Store.exec st (mkRequest "facts" (Select "*")
                   (if bool_decide (c = "all") then [] else [("category", VStr c)])
                   false (Some ("votesInteresting", true)) (Some 100%nat))
  = (mkResponse (fetched c st) None, st).
Proof.
  unfold fetched. destruct (decide (c = "all")) as [Hall|Hc].
  - rewrite (bool_decide_eq_true_2 _ Hall), Store_read by reflexivity.
    do 4 f_equal. apply list_filter_iff. intros f. simpl. tauto.
  - rewrite (bool_decide_eq_false_2 _ Hc), Store_read by reflexivity.
    do 4 f_equal. apply list_filter_iff. intros f. rewrite passes_category. tauto.
Qed.

Lemma fetched_elem_of (c : string) (st : Store.t) (f : Fact.t) :
  f ∈ fetched c st -> f ∈ Store.rows st /\ (c = "all" \/ Fact.category f = c).
Proof.
  unfold fetched. intros Hf. apply subseteq_take in Hf.
  rewrite merge_sort_Permutation in Hf.
  apply list_elem_of_filter in Hf. tauto.
Qed.

(** C2: the fetch reads the [facts] collection with one equality filter on
    [category] when the selection is not ["all"] and none otherwise, ordered
    by [votesInteresting] ascending and limited to 100; when the answer
    carries no error the list becomes exactly the returned rows.  Run
    against the reference store, the read changes nothing in the store and
    returns the first 100 of the table's rows of that category (of all rows
    for ["all"]) sorted by ascending [votesInteresting]. *)
Theorem getFacts_reads_filtered_ordered_capped (s : UI) :
  exists q resume,
    getFacts s = (setIsLoading true s, Awaiting q resume)
    /\ q = mkRequest "facts" (Select "*")
             (if bool_decide (currentCategory s = "all") then []
              else [("category", VStr (currentCategory s))])
             false (Some ("votesInteresting", true)) (Some 100%nat)
    /\ (forall (resp : Response) (s' : UI),
          error resp = None ->
          exists s'', resume resp s' = Ok s'' /\ facts s'' = Some <$> data resp)
    /\ (forall st : Store.t,
          let keep (f : Fact.t) :=
            currentCategory s = "all" \/ Fact.category f = currentCategory s in
          let rows := data (Store.answer st q) in
          (Store.exec st q).2 = st
          /\ error (Store.answer st q) = None
          /\ rows = take 100 (merge_sort (Store.ordered_by Fact.votesInteresting true)
                                (filter keep (Store.rows st)))
          /\ (forall f, f ∈ rows -> f ∈ Store.rows st /\ keep f)
          /\ StronglySorted
               (fun a b => Fact.votesInteresting a <= Fact.votesInteresting b) rows
          /\ (length rows <= 100)%nat
          /\ exists s3, settle (Store.answer st) getFacts s = Ok s3
                        /\ facts s3 = Some <$> rows).
Proof.
  destruct (getFacts_request s) as (resume & Hg & Hr).
  eexists _, resume. split; [exact Hg|]. split; [reflexivity|]. split.
  { intros resp s' He. eexists. rewrite Hr, He. split; reflexivity. }
  intros st keep rows.
  set (q := mkRequest _ _ _ _ _ _) in *.
  set (sorted := take 100 (merge_sort (Store.ordered_by Fact.votesInteresting true)
                             (filter keep (Store.rows st)))).
  assert (Hexec : Store.exec st q = (mkResponse sorted None, st)).
  { apply Store_getFacts. }
  assert (Hrows : rows = sorted).
  { unfold rows, Store.answer. by rewrite Hexec. }
  split; [by rewrite Hexec|]. split; [unfold Store.answer; by rewrite Hexec|].
  split; [exact Hrows|]. rewrite Hrows. split; [|split; [|split]].
  - intros f Hf. by apply fetched_elem_of in Hf.
  - apply StronglySorted_take.
    apply (StronglySorted_merge_sort (Store.ordered_by Fact.votesInteresting true)).
  - unfold sorted. rewrite length_take. lia.
  - eexists. unfold settle. rewrite Hg, Hr. unfold Store.answer. rewrite Hexec.
    split; reflexivity.
Qed.

(** ** Votes *)

Lemma get_with_column (c k : VoteColumn) (v : Z) (f : Fact.t) :
  get_column k (with_column c v f) = if decide (k = c) then v else get_column k f.
Proof. by destruct c, k. Qed.

Lemma with_column_keeps (c : VoteColumn) (v : Z) (f : Fact.t) :
  Fact.id (with_column c v f) = Fact.id f
  /\ Fact.text (with_column c v f) = Fact.text f
  /\ Fact.source (with_column c v f) = Fact.source f
  /\ Fact.category (with_column c v f) = Fact.category f.
Proof. by destruct c. Qed.

Lemma write_column_columnName (c : VoteColumn) (v : Z) :
  Store.write_column (columnName c) v = Some (with_column c v).
Proof. by destruct c. Qed.

Lemma vote_patch_defined (fact : Fact.t) (new : entry) (l : list entry) :
  Forall is_Some l ->
  array_map (fun f : entry =>
     match f with
     | None => Throw TypeError
     | Some f' => Ok (if bool_decide (Fact.id f' = Fact.id fact) then new else f)
     end) l
  = Ok (patched fact new <$> l).
Proof.
  induction 1 as [|e l [f ->] _ IH]; [done|].
  simpl. rewrite IH. simpl. by destruct (bool_decide _).
Qed.

(** The request [handleVote] sends and what it does with the answer. *)
Lemma handleVote_request (fact : Fact.t) (c : VoteColumn) (s : UI) :
  exists resume,
    handleVote fact c s =
      (setIsUpdating (Fact.id fact) true s,
       Awaiting (mkRequest "facts" (Update (columnName c) (get_column c fact + 1))
                   [("id", VNum (Fact.id fact))] true None None)
                resume)
    /\ (forall resp s', error resp <> None ->
          resume resp s' =
            Ok (setIsUpdatingOf (mountedAt <$> factElements s !! Fact.id fact)
                  (Fact.id fact) false s'))
    /\ (forall resp s', error resp = None -> Forall is_Some (facts s') ->
          resume resp s' =
            Ok (setFacts (patched fact (data resp !! 0%nat) <$> facts s')
                  (setIsUpdatingOf (mountedAt <$> factElements s !! Fact.id fact)
                     (Fact.id fact) false s'))).
Proof.
  eexists. split; [reflexivity|]. split.
  - intros resp s' He. cbv beta. by destruct (error resp).
  - intros resp s' He Hdef. cbv beta. rewrite He. unfold setFactsWith.
    cbn [facts setIsUpdatingOf]. by rewrite vote_patch_defined.
Qed.

Lemma patched_lookup_same (fact : Fact.t) (new : entry) (l : list entry) (i : nat) (f : Fact.t) :
  l !! i = Some (Some f) -> Fact.id f = Fact.id fact ->
  (patched fact new <$> l) !! i = Some new.
Proof.
  intros Hi Hid. rewrite list_lookup_fmap, Hi. simpl.
  by rewrite bool_decide_eq_true_2.
Qed.

Lemma patched_lookup_other (fact : Fact.t) (new : entry) (l : list entry) (i : nat) (f : Fact.t) :
  l !! i = Some (Some f) -> Fact.id f <> Fact.id fact ->
  (patched fact new <$> l) !! i = Some (Some f).
Proof.
  intros Hi Hid. rewrite list_lookup_fmap, Hi. simpl.
  by rewrite bool_decide_eq_false_2.
Qed.

Lemma filter_none {A : Type} (P : A -> Prop) `{!forall x, Decision (P x)} (l : list A) :
  (forall x, x ∈ l -> ~ P x) -> filter P l = [].
Proof.
  induction l as [|a l IH]; intros Hno; [done|].
  rewrite filter_cons_False by (apply Hno; left).
  apply IH. intros x Hx. apply Hno. by right.
Qed.

(** With identifiers that are unique, the filter on [id] selects one row. *)
Lemma filter_unique_id (rows : list Fact.t) (stored : Fact.t) :
  NoDup (Fact.id <$> rows) -> stored ∈ rows ->
  filter (fun f => Store.passes [("id", VNum (Fact.id stored))] f = true) rows = [stored].
Proof.
  induction rows as [|r rows IH]; intros Hnd Hin; [by apply elem_of_nil in Hin|].
  rewrite fmap_cons in Hnd. apply NoDup_cons in Hnd as [Hr Hnd].
  assert (Hnone : forall x, x ∈ rows -> Fact.id x <> Fact.id r).
  { intros x Hx Heq. apply Hr. rewrite <- Heq. by apply list_elem_of_fmap_2. }
  apply elem_of_cons in Hin as [->|Hin].
  - rewrite filter_cons_True by by apply passes_id. f_equal.
    apply filter_none. intros x Hx.
    rewrite passes_id. by apply Hnone.
  - rewrite filter_cons_False; [by apply IH|].
    rewrite passes_id. intros Heq. by apply (Hnone stored).
Qed.

(** What the reference store does with the update of [handleVote]. *)
Lemma Store_vote (st : Store.t) (fact stored : Fact.t) (c : VoteColumn) :
  NoDup (Fact.id <$> Store.rows st) -> stored ∈ Store.rows st ->
  Fact.id stored = Fact.id fact ->
  Store.exec st (mkRequest "facts" (Update (columnName c) (get_column c fact + 1))
                   [("id", VNum (Fact.id fact))] true None None)
  = (mkResponse [with_column c (get_column c fact + 1) stored] None,
     Store.mk ((fun f => if bool_decide (Fact.id f = Fact.id fact)
                         then with_column c (get_column c fact + 1) f else f)
               <$> Store.rows st)
              (Store.next_id st)).
Proof.
  intros Hnd Hin Hid. unfold Store.exec.
  change (negb (bool_decide (table _ = "facts"))) with false.
  change (negb (forallb _ (filters _))) with false.
  cbn [action filters returning Store.rows Store.next_id].
  rewrite write_column_columnName. rewrite <- Hid.
  rewrite (filter_unique_id _ _ Hnd Hin). f_equal. f_equal.
  apply list_fmap_ext. intros _ f _.
  destruct (Store.passes _ f) eqn:Hp.
  - apply passes_id in Hp. by rewrite bool_decide_eq_true_2.
  - rewrite bool_decide_eq_false_2; [done|].
    intros Heq. apply passes_id in Heq. congruence.
Qed.

(** C7: a vote on [fact] for counter [c] sends one update of the [facts]
    row whose [id] is [fact.id], writing [c] with the value [fact] holds for
    [c] plus one, and asks the row back.  When the answer carries no error
    and a row, every element of the list with that identifier becomes the
    returned row.  The reference store returns the stored row with [c]
    replaced by the written value, so with the stored row equal to [fact]
    the displayed element is [fact] with [c] one higher and every other
    field as it was. *)
Theorem handleVote_writes_increment_and_replaces
    (fact : Fact.t) (c : VoteColumn) (s s' : UI)
    (resp : Response) (row : Fact.t) (rest : list Fact.t) :
  error resp = None -> data resp = row :: rest -> Forall is_Some (facts s') ->
  exists q resume s'',
    handleVote fact c s = (setIsUpdating (Fact.id fact) true s, Awaiting q resume)
    /\ q = mkRequest "facts" (Update (columnName c) (get_column c fact + 1))
             [("id", VNum (Fact.id fact))] true None None
    /\ resume resp s' = Ok s''
    /\ (forall (i : nat) (f : Fact.t),
          facts s' !! i = Some (Some f) -> Fact.id f = Fact.id fact ->
          facts s'' !! i = Some (Some row))
    /\ (forall st : Store.t,
          NoDup (Fact.id <$> Store.rows st) -> fact ∈ Store.rows st ->
          let shown := with_column c (get_column c fact + 1) fact in
          Store.answer st q = mkResponse [shown] None
          /\ get_column c shown = get_column c fact + 1
          /\ (forall k, k <> c -> get_column k shown = get_column k fact)
          /\ Fact.id shown = Fact.id fact /\ Fact.text shown = Fact.text fact
          /\ Fact.source shown = Fact.source fact
          /\ Fact.category shown = Fact.category fact
          /\ (Forall is_Some (facts s) ->
              exists s3, settle (Store.answer st) (handleVote fact c) s = Ok s3
                /\ forall (i : nat) (f : Fact.t),
                     facts s !! i = Some (Some f) -> Fact.id f = Fact.id fact ->
                     facts s3 !! i = Some (Some shown))).
Proof.
  intros He Hd Hdef.
  destruct (handleVote_request fact c s) as (resume & Hg & _ & Hr).
  eexists _, resume, _. split; [exact Hg|]. split; [reflexivity|].
  split; [by apply Hr|]. split.
  - intros i f Hi Hid. simpl. rewrite Hd. simpl.
    by apply (patched_lookup_same fact (Some row) _ i f).
  - intros st Hnd Hin shown.
    pose proof (Store_vote st fact fact c Hnd Hin eq_refl) as Hexec.
    assert (Hans : Store.answer st
              (mkRequest "facts" (Update (columnName c) (get_column c fact + 1))
                 [("id", VNum (Fact.id fact))] true None None)
            = mkResponse [shown] None).
    { unfold Store.answer. by rewrite Hexec. }
    split; [exact Hans|].
    split; [unfold shown; rewrite get_with_column; by rewrite decide_True|].
    split.
    { intros k Hk. unfold shown. rewrite get_with_column. by rewrite decide_False. }
    destruct (with_column_keeps c (get_column c fact + 1) fact) as (H1 & H2 & H3 & H4).
    do 4 (split; [done|]).
    intros Hs. eexists. unfold settle. rewrite Hg, Hans.
    rewrite Hr by done. split; [reflexivity|].
    intros i f Hi Hid. simpl.
    by apply (patched_lookup_same fact (Some shown) _ i f).
Qed.

(** A list that [FactList] renders has a row at every index. *)
Lemma rendered_list_defined (s : UI) (v : FactListView) :
  render_FactList s = Ok v -> Forall is_Some (facts s).
Proof.
  unfold render_FactList. intros Hv.
  destruct (bool_decide (length (facts s) = 0%nat)) eqn:Hlen.
  - apply bool_decide_eq_true in Hlen. apply length_zero_iff_nil in Hlen.
    rewrite Hlen. constructor.
  - destruct (array_map _ (facts s)) as [items|e] eqn:Hmap; [|discriminate].
    apply Forall_forall. intros e He.
    apply list_elem_of_lookup in He as [i Hi].
    destruct (array_map_Ok_lookup _ _ _ i e Hmap Hi) as (y & Hy & _).
    destruct e; [by eexists|discriminate].
Qed.

(** C8: a vote whose answer carries no error changes the list in place: the
    list keeps its length, every element whose identifier differs from the
    voted one stays where it is and as it is, and the elements with the
    voted identifier hold what the store returned.  A vote whose answer
    carries an error leaves the list as it is.  Neither raises an alert. *)
Theorem handleVote_patches_only_its_entry
    (fact : Fact.t) (c : VoteColumn) (s s' : UI) (resp : Response) :
  exists q resume,
    handleVote fact c s = (setIsUpdating (Fact.id fact) true s, Awaiting q resume)
    /\ (error resp = None -> Forall is_Some (facts s') ->
        exists s'',
          resume resp s' = Ok s''
          /\ alerts s'' = alerts s'
          /\ length (facts s'') = length (facts s')
          /\ (forall (i : nat) (f : Fact.t),
                facts s' !! i = Some (Some f) -> Fact.id f <> Fact.id fact ->
                facts s'' !! i = Some (Some f))
          /\ (forall (i : nat) (f : Fact.t),
                facts s' !! i = Some (Some f) -> Fact.id f = Fact.id fact ->
                facts s'' !! i = Some (data resp !! 0%nat)))
    /\ (error resp <> None ->
        exists s'',
          resume resp s' = Ok s''
          /\ facts s'' = facts s'
          /\ alerts s'' = alerts s').
Proof.
  destruct (handleVote_request fact c s) as (resume & Hg & Herr & Hok).
  eexists _, resume. split; [exact Hg|]. split.
  - intros He Hdef. eexists. split; [by apply Hok|].
    split; [reflexivity|]. split; [simpl; by rewrite length_fmap|]. split.
    + intros i f Hi Hid. simpl. by apply (patched_lookup_other fact _ _ i f).
    + intros i f Hi Hid. simpl. by apply (patched_lookup_same fact _ _ i f).
  - intros He. eexists. split; [by apply Herr|]. split; reflexivity.
Qed.

(** ** The page and its store *)




Lemma in_sync_defined (sys : System) : in_sync sys -> Forall is_Some (facts (page sys)).
Proof.
  intros (_ & _ & Hvis). apply Forall_forall. intros e He.
  destruct (Hvis e He) as (f & -> & _). by eexists.
Qed.

(** *** Fetch *)



(** *** Vote *)

Lemma run_handleVote (sys : System) (fact : Fact.t) (c : VoteColumn) :
  in_sync sys -> Some fact ∈ facts (page sys) ->
  let shown := with_column c (get_column c fact + 1) fact in
  run (handleVote fact c) sys =
    Ok (mkSystem
          (setFacts (patched fact (Some shown) <$> facts (page sys))
             (setIsUpdatingOf (mountedAt <$> factElements (page sys) !! Fact.id fact)
                (Fact.id fact) false
                (setIsUpdating (Fact.id fact) true (page sys))))
          (Store.mk ((fun f => if bool_decide (Fact.id f = Fact.id fact)
                               then with_column c (get_column c fact + 1) f else f)
                     <$> Store.rows (store sys))
                    (Store.next_id (store sys)))).
Proof.
  intros Hsync Hvis shown.
  pose proof (in_sync_defined _ Hsync) as Hdef.
  destruct Hsync as (Hnd & _ & Hin).
  destruct (Hin _ Hvis) as (f & [= <-] & Hrow).
  destruct (handleVote_request fact c (page sys)) as (resume & Hg & _ & Hr).
  unfold run. rewrite Hg, (Store_vote _ fact fact c Hnd Hrow eq_refl).
  cbn [fst snd]. rewrite Hr by done. reflexivity.
Qed.

Lemma voted_rows_ids (fact : Fact.t) (c : VoteColumn) (v : Z) (rows : list Fact.t) :
  Fact.id <$> ((fun f => if bool_decide (Fact.id f = Fact.id fact)
                         then with_column c v f else f) <$> rows)
  = Fact.id <$> rows.
Proof.
  rewrite <- list_fmap_compose. apply list_fmap_ext. intros _ f _. simpl.
  destruct (bool_decide _); [|done]. apply with_column_keeps.
Qed.


Section Actions.

Variable URL_new : string -> result URL.

(** *** Submit *)










End Actions.

(** ** The handlers on concrete input *)

(** C3 on the sample page: the store cannot be reached. *)
Lemma getFacts_error_sample :
  exists s3,
    settle (fun _ => offline) getFacts sample_page = Ok s3
    /\ facts s3 = [Some coins; Some bats; Some moon]
    /\ isLoading s3 = false
    /\ alerts s3 = ["There was a problem getting data"].
Proof.
  destruct (getFacts_error_alerts_and_clears_loading
              sample_page sample_page offline "FetchError" eq_refl)
    as (q & resume & s'' & _ & _ & _ & _ & _ & _ & _ & _ & Hsettle).
  destruct (Hsettle (fun _ => offline) eq_refl) as (s3 & H1 & H2 & H3 & H4).
  exists s3. repeat split; assumption.
Defined.

(** C4 on a text of 1001 characters, everything else being valid. *)
Lemma handleSubmit_invalid_sample :
  String.length long_text = 1001%nat
  /\ handleSubmit SampleBrowser.URL_new (setText long_text sample_page)
     = (setText long_text sample_page, Finished).
Proof.
  split; [vm_compute; reflexivity|].
  apply (handleSubmit_invalid_is_noop SampleBrowser.URL_new (setText long_text sample_page)).
  right. right. right. apply Nat.ltb_lt. vm_compute. reflexivity.
Defined.

Lemma sample_source_is_http : http_source SampleBrowser.URL_new "https://example.com".
Proof.
  exists (mkURL "https:"). split; [vm_compute; reflexivity|right; reflexivity].
Defined.

(** C5 on the sample page: the returned row is put in front. *)
Lemma handleSubmit_success_sample :
  exists s3,
    settle (Store.answer sample_store) (handleSubmit SampleBrowser.URL_new) sample_page = Ok s3
    /\ facts s3 = [Some inserted; Some coins; Some bats; Some moon]
    /\ text s3 = "" /\ source s3 = "" /\ category s3 = "" /\ showForm s3 = false.
Proof.
  assert (Hlen : (String.length (text sample_page) <= 1000)%nat).
  { apply Nat.leb_le. vm_compute. reflexivity. }
  destruct (handleSubmit_success_prepends SampleBrowser.URL_new
              sample_page sample_page (mkResponse [inserted] None) inserted []
              ltac:(discriminate) sample_source_is_http ltac:(discriminate) Hlen
              eq_refl eq_refl)
    as (resume & s'' & _ & _ & _ & _ & _ & _ & _ & Hstore).
  destruct (Hstore sample_store) as (s3 & H1 & H2 & H3 & H4 & H5 & H6).
  exists s3. repeat split; assumption.
Defined.

(** C6 on the sample page: the insert fails. *)
Lemma handleSubmit_failure_sample :
  exists s3,
    settle (fun _ => offline) (handleSubmit SampleBrowser.URL_new) sample_page = Ok s3
    /\ facts s3 = [Some coins; Some bats; Some moon]
    /\ alerts s3 = []
    /\ text s3 = "" /\ source s3 = "" /\ category s3 = "" /\ showForm s3 = false.
Proof.
  assert (Hlen : (String.length (text sample_page) <= 1000)%nat).
  { apply Nat.leb_le. vm_compute. reflexivity. }
  destruct (handleSubmit_failure_still_clears SampleBrowser.URL_new
              sample_page sample_page offline "FetchError"
              ltac:(discriminate) sample_source_is_http ltac:(discriminate) Hlen eq_refl)
    as (q & resume & s'' & _ & _ & _ & _ & _ & _ & _ & _ & Hsettle).
  destruct (Hsettle (fun _ => offline) eq_refl) as (s3 & H1 & H2 & H3 & H4 & H5 & H6 & H7).
  exists s3. repeat split; assumption.
Defined.

Lemma sample_page_defined : Forall is_Some (facts sample_page).
Proof. repeat constructor; by eexists. Defined.

Lemma sample_store_unique : NoDup (Fact.id <$> Store.rows sample_store).
Proof. refine (bool_decide_unpack _ _). vm_compute. exact I. Defined.

Lemma bats_stored : bats ∈ Store.rows sample_store.
Proof. simpl. do 2 right. left. Defined.

(** C7 on the fact with identifier 7: a vote on [votesFalse], which the
    page holds at 2, shows the fact with [votesFalse] at 3. *)
Lemma handleVote_sample :
  exists s3,
    settle (Store.answer sample_store) (handleVote bats VotesFalse) sample_page = Ok s3
    /\ facts s3 !! 1%nat
       = Some (Some (Fact.mk 7 "Bats are blind" "https://example.com" "science" 4 1 3)).
Proof.
  destruct (handleVote_writes_increment_and_replaces
              bats VotesFalse sample_page sample_page
              (mkResponse [with_column VotesFalse 3 bats] None)
              (with_column VotesFalse 3 bats) [] eq_refl eq_refl sample_page_defined)
    as (q & resume & s'' & _ & Hq & _ & _ & Hstore).
  rewrite Hq in Hstore.
  destruct (Hstore sample_store sample_store_unique bats_stored)
    as (_ & _ & _ & _ & _ & _ & _ & Hsettle).
  destruct (Hsettle sample_page_defined) as (s3 & Hs3 & Hshown).
  exists s3. split; [exact Hs3|].
  apply (Hshown 1%nat bats); reflexivity.
Defined.

(** C8 on the sample page: the two other facts stay where they are. *)
Lemma handleVote_frame_sample :
  exists resume s'',
    (handleVote bats VotesFalse sample_page).2
      = Awaiting (mkRequest "facts" (Update "votesFalse" 3) [("id", VNum 7)] true None None)
                 resume
    /\ resume (mkResponse [with_column VotesFalse 3 bats] None) sample_page = Ok s''
    /\ length (facts s'') = 3%nat
    /\ facts s'' !! 0%nat = Some (Some coins)
    /\ facts s'' !! 2%nat = Some (Some moon).
Proof.
  destruct (handleVote_patches_only_its_entry
              bats VotesFalse sample_page sample_page
              (mkResponse [with_column VotesFalse 3 bats] None))
    as (q & resume & Hg & Hok & _).
  destruct (Hok eq_refl sample_page_defined) as (s'' & Hr & _ & Hlen & Hother & _).
  injection Hg as <- <-.
  eexists _, s''. split; [reflexivity|]. split; [exact Hr|].
  split; [exact Hlen|]. split.
  - apply (Hother 0%nat coins); [reflexivity|discriminate].
  - apply (Hother 2%nat moon); [reflexivity|discriminate].
Defined.

(** ** The sample data through the program *)

Example disputed_samples :
  isDisputed coins = true /\ isDisputed bats = false /\ isDisputed moon = false.
Proof. repeat split. Qed.

(** The science feed of the sample store: two rows, fewest interesting
    votes first. *)
Example science_feed :
  exists s3,
    settle (Store.answer sample_store) getFacts (setCurrentCategory "science" sample_page)
      = Ok s3
    /\ facts s3 = [Some bats; Some moon].
Proof. eexists. split; vm_compute; reflexivity. Qed.

(** The whole feed of the sample store. *)
Example all_feed :
  exists s3,
    settle (Store.answer sample_store) getFacts sample_page = Ok s3
    /\ facts s3 = [Some coins; Some bats; Some moon].
Proof. eexists. split; vm_compute; reflexivity. Qed.

(** A fetched row of an unlisted category takes the list down with it. *)
Example stray_breaks_the_list :
  exists s3,
    settle (fun _ => mkResponse [bats; stray] None) getFacts sample_page = Ok s3
    /\ facts s3 = [Some bats; Some stray]
    /\ render_Fact stray s3 = Throw TypeError
    /\ render_FactList s3 = Throw TypeError.
Proof. eexists. repeat split; vm_compute; reflexivity. Qed.

(** An update answered without error and without a row leaves [undefined]
    in the place of the voted fact, and such a list does not render. *)
Example vote_answered_without_row :
  exists s3,
    settle (fun _ => mkResponse [] None) (handleVote bats VotesFalse) sample_page = Ok s3
    /\ facts s3 = [Some coins; None; Some moon]
    /\ render_FactList s3 = Throw TypeError.
Proof. eexists. repeat split; vm_compute; reflexivity. Qed.

Lemma sample_in_sync : in_sync (mkSystem sample_page sample_store).
Proof.
  split; [exact sample_store_unique|]. split.
  - intros f Hf. simpl in Hf. set_unfold. destruct Hf as [->|[->|[->|[]]]]; simpl; lia.
  - intros e He. simpl in He. set_unfold.
    destruct He as [->|[->|[->|[]]]]; eexists; (split; [reflexivity|]); set_solver.
Qed.

(** A vote on the sample page, through to the store. *)
Example vote_on_sample :
  exists sys',
    run (handleVote bats VotesFalse) (mkSystem sample_page sample_store) = Ok sys'
    /\ facts (page sys') = [Some coins; Some (with_column VotesFalse 3 bats); Some moon]
    /\ Store.rows (store sys') = [moon; coins; with_column VotesFalse 3 bats].
Proof. eexists. repeat split; vm_compute; reflexivity. Qed.

(** ** Answers that overlap *)


(** * More of the page *)

(** An element that [FactList] can show: a row whose category has an entry
    in [CATEGORIES]. *)
Definition showable (e : entry) : Prop :=
  exists f, e = Some f /\ Fact.category f ∈ name <$> CATEGORIES.

Lemma render_Fact_listed (f : Fact.t) (s : UI) :
  Fact.category f ∈ name <$> CATEGORIES ->
  exists v, render_Fact f s = Ok v
            /\ disputed_badge v = isDisputed f
            /\ tag_text v = Fact.category f
            /\ buttons_disabled v
               = default false (isUpdating <$> factElements s !! Fact.id f).
Proof.
  intros Hc. destruct (find_category_Some _ Hc) as (cat & Hf & _).
  unfold render_Fact. rewrite Hf. simpl. eexists. by repeat split.
Qed.

Lemma render_Fact_Ok_listed (f : Fact.t) (s : UI) :
  (exists v, render_Fact f s = Ok v) -> Fact.category f ∈ name <$> CATEGORIES.
Proof.
  intros [v Hv].
  destruct (decide (Fact.category f ∈ name <$> CATEGORIES)) as [|Hn]; [done|].
  unfold render_Fact in Hv. rewrite (find_category_None _ Hn) in Hv. discriminate.
Qed.

Lemma render_Fact_disabled (f : Fact.t) (s : UI) (v : FactView) :
  render_Fact f s = Ok v ->
  buttons_disabled v = default false (isUpdating <$> factElements s !! Fact.id f).
Proof.
  unfold render_Fact. destruct (find _ CATEGORIES); simpl; [|discriminate].
  by intros [= <-].
Qed.

Lemma render_Fact_same_element (g : Fact.t) (s1 s2 : UI) :
  factElements s1 !! Fact.id g = factElements s2 !! Fact.id g ->
  render_Fact g s1 = render_Fact g s2.
Proof.
  intros H. unfold render_Fact. by rewrite H.
Qed.

(** What is mounted after a render. *)
Lemma remount_lookup (stamp : nat) (keys : list Z) (old : gmap Z FactElement) (k : Z) :
  remount stamp keys old !! k
  = if decide (k ∈ keys) then Some (default (mkFactElement stamp false) (old !! k))
    else None.
Proof.
  unfold remount. induction keys as [|a keys IH]; cbn [foldr].
  - rewrite lookup_empty. destruct (decide (k ∈ [])) as [Hin|]; [|done].
    by apply elem_of_nil in Hin.
  - destruct (decide (a = k)) as [->|Hne].
    + rewrite lookup_insert_eq. destruct (decide (k ∈ k :: keys)) as [|Hin]; [done|].
      exfalso. apply Hin. by left.
    + rewrite lookup_insert_ne by done. rewrite IH.
      destruct (decide (k ∈ keys)) as [Hin|Hin];
        destruct (decide (k ∈ a :: keys)) as [Hin'|Hin']; try done.
      * exfalso. apply Hin'. by right.
      * exfalso. apply elem_of_cons in Hin' as [->|Hin']; done.
Qed.

(** A render writes no cell: an element it leaves mounted is as it was, and
    an element it mounts has [isUpdating] at [false]. *)
Lemma remount_elements (stamp : nat) (keys : list Z) (old : gmap Z FactElement)
    (k : Z) (el : FactElement) :
  remount stamp keys old !! k = Some el ->
  old !! k = Some el \/ (old !! k = None /\ el = mkFactElement stamp false).
Proof.
  rewrite remount_lookup. destruct (decide (k ∈ keys)); [|discriminate].
  destruct (old !! k) as [el'|]; simpl; intros [= <-]; [by left|by right].
Qed.

(** A render keeps or unmounts what was mounted. *)
Lemma remount_keeps (stamp : nat) (keys : list Z) (old : gmap Z FactElement)
    (k : Z) (el : FactElement) :
  old !! k = Some el ->
  remount stamp keys old !! k = None \/ remount stamp keys old !! k = Some el.
Proof.
  intros Hk. rewrite remount_lookup, Hk.
  destruct (decide (k ∈ keys)); [by right|by left].
Qed.

(** The cells after the setter of the element [n] under key [k]. *)
Lemma setIsUpdatingOf_lookup (n : nat) (k j : Z) (b : bool) (s : UI) :
  factElements (setIsUpdatingOf (Some n) k b s) !! j
  = if decide (j = k /\ mountedAt <$> factElements s !! k = Some n)
    then Some (mkFactElement n b)
    else factElements s !! j.
Proof.
  cbn [factElements setIsUpdatingOf].
  destruct (decide (mountedAt <$> factElements s !! k = Some n)) as [Hme|Hme].
  - rewrite (bool_decide_eq_true_2 _ Hme).
    destruct (decide (j = k)) as [->|Hne].
    + rewrite lookup_insert_eq. by rewrite decide_True.
    + rewrite lookup_insert_ne by done. rewrite decide_False; [done|tauto].
  - rewrite (bool_decide_eq_false_2 _ Hme). rewrite decide_False; [done|tauto].
Qed.

Lemma render_FactList_undefined (s : UI) :
  None ∈ facts s -> render_FactList s = Throw TypeError.
Proof.
  intros Hin. unfold render_FactList.
  destruct (facts s) as [|e l] eqn:Hl; [by apply elem_of_nil in Hin|].
  rewrite bool_decide_eq_false_2 by done.
  by rewrite (array_map_Throw _ _ None Hin).
Qed.

Lemma render_FactList_total (s : UI) :
  Forall showable (facts s) -> exists v, render_FactList s = Ok v.
Proof.
  intros Hall. unfold render_FactList.
  destruct (bool_decide (length (facts s) = 0%nat)); [by eexists|].
  destruct (array_map_total
              (fun f : entry => match f with
                                | None => Throw TypeError
                                | Some fact => render_Fact fact s
                                end) (facts s)) as [items Hitems].
  { eapply Forall_impl; [exact Hall|]. intros e (f & -> & Hc).
    destruct (render_Fact_listed f s Hc) as (v & Hv & _). eauto. }
  rewrite Hitems. simpl. eauto.
Qed.

Lemma all_is_not_listed : "all" ∉ name <$> CATEGORIES.
Proof. refine (bool_decide_unpack _ _). vm_compute. exact I. Qed.

Lemma with_column_twice (c : VoteColumn) (v : Z) (f : Fact.t) :
  with_column c v (with_column c v f) = with_column c v f.
Proof. by destruct c. Qed.

Section Page.

Variable URL_new : string -> result URL.
Variable toUpperCase : string -> string.

(** ** Header *)

(** X1: the header button flips [showForm] and nothing of the list, the
    loading flag, the category or the alerts; its label is the close label
    exactly while the form is shown.  A form that is opened shows empty
    fields, a full counter and enabled inputs, so closing the form and
    opening it again discards what was typed. *)
Theorem toggleForm_flips_and_reopens_empty (s : UI) :
  showForm (toggleForm s) = negb (showForm s)
  /\ facts (toggleForm s) = facts s
  /\ isLoading (toggleForm s) = isLoading s
  /\ currentCategory (toggleForm s) = currentCategory s
  /\ alerts (toggleForm s) = alerts s
  /\ (button_label (render_Header s) = "❌ Close" <-> showForm s = true)
  /\ (showForm s = false ->
      let v := render_NewFactForm toUpperCase (toggleForm s) in
      text_value v = "" /\ source_value v = "" /\ category_value v = ""
      /\ remaining v = 1000 /\ form_disabled v = false)
  /\ (showForm s = true ->
      let v := render_NewFactForm toUpperCase (toggleForm (toggleForm s)) in
      showForm (toggleForm (toggleForm s)) = true
      /\ text_value v = "" /\ source_value v = "" /\ category_value v = ""
      /\ remaining v = 1000 /\ form_disabled v = false).
Proof.
  unfold toggleForm, render_Header. destruct s as [sf fs il cc tx so ca iu up al].
  destruct sf; simpl; repeat split; try done.
Qed.

(** ** FactList *)

(** X2: [FactList] renders exactly when every element of the list is a row
    whose category is listed.  The empty list gives the message; any other
    list that renders gives one item per element, in the order of the list,
    each being what [Fact] renders for that element, and the count shown is
    the length of the list. *)
Theorem render_FactList_iff_showable (s : UI) :
  ((exists v, render_FactList s = Ok v) <-> Forall showable (facts s))
  /\ (facts s = [] <-> render_FactList s = Ok NoFacts)
  /\ (forall (items : list FactView) (n : nat),
        render_FactList s = Ok (Listing items n) ->
        n = length (facts s) /\ length items = n /\ n <> 0%nat
        /\ forall (i : nat) (f : Fact.t),
             facts s !! i = Some (Some f) ->
             exists v, items !! i = Some v /\ render_Fact f s = Ok v).
Proof.
  set (one := fun f : entry =>
                match f with
                | None => Throw TypeError
                | Some fact => render_Fact fact s
                end).
  assert (Hone : forall e, (exists v, one e = Ok v) <-> showable e).
  { intros [f|]; simpl; split.
    - intros Hv. exists f. split; [done|]. by apply (render_Fact_Ok_listed f s).
    - intros (f' & [= <-] & Hc). destruct (render_Fact_listed f s Hc) as (v & Hv & _). eauto.
    - by intros [v Hv].
    - by intros (f' & Hf & _). }
  split; [|split].
  - unfold render_FactList. fold one.
    destruct (bool_decide (length (facts s) = 0%nat)) eqn:Hlen.
    + apply bool_decide_eq_true, length_zero_iff_nil in Hlen. rewrite Hlen.
      split; [constructor|by eexists].
    + split.
      * intros [v Hv].
        destruct (array_map one (facts s)) as [items|e] eqn:Hmap; [|discriminate].
        apply Forall_forall. intros e He. apply Hone.
        apply list_elem_of_lookup in He as [i Hi].
        destruct (array_map_Ok_lookup _ _ _ i e Hmap Hi) as (y & Hy & _). eauto.
      * intros Hall.
        destruct (array_map_total one (facts s)) as [items Hitems].
        { eapply Forall_impl; [exact Hall|]. intros e He. by apply Hone. }
        rewrite Hitems. simpl. eauto.
  - unfold render_FactList. fold one. split.
    + by intros ->.
    + destruct (bool_decide (length (facts s) = 0%nat)) eqn:Hlen.
      * intros _. by apply bool_decide_eq_true, length_zero_iff_nil in Hlen.
      * by destruct (array_map one (facts s)).
  - intros items n. unfold render_FactList. fold one.
    destruct (bool_decide (length (facts s) = 0%nat)) eqn:Hlen; [discriminate|].
    apply bool_decide_eq_false in Hlen.
    destruct (array_map one (facts s)) as [items'|e] eqn:Hmap; [|discriminate].
    simpl. intros [= <- <-]. split; [done|].
    split; [by apply (array_map_Ok_length one)|]. split; [done|].
    intros i f Hi.
    destruct (array_map_Ok_lookup _ _ _ i (Some f) Hmap Hi) as (y & Hy & Hl). eauto.
Qed.

(** ** App *)

(** X3: while a fetch is in flight the page shows the loader in place of
    the list, so it renders whatever the list holds.  After any answer the
    flag is down and the page shows the list: it renders exactly when the
    list does. *)
Theorem App_shows_loader_while_fetching (s : UI) :
  exists q resume v,
    getFacts s = (setIsLoading true s, Awaiting q resume)
    /\ render_App toUpperCase (setIsLoading true s) = Ok v
    /\ main_view v = ShowLoader "Loading..."
    /\ forall (resp : Response) (s' : UI),
         exists s'',
           resume resp s' = Ok s''
           /\ (forall lv, render_FactList s'' = Ok lv ->
                 exists av, render_App toUpperCase s'' = Ok av /\ main_view av = ShowList lv)
           /\ (render_FactList s'' = Throw TypeError ->
                 render_App toUpperCase s'' = Throw TypeError).
Proof.
  destruct (getFacts_request s) as (resume & Hg & Hr).
  eexists _, resume, _. split; [exact Hg|]. split; [reflexivity|].
  split; [reflexivity|]. intros resp s'. eexists. split; [apply Hr|].
  unfold render_App. simpl. split.
  - intros lv Hlv. rewrite Hlv. simpl. eauto.
  - by intros ->.
Qed.

(** ** NewFactForm *)

(** X4: a submission that passes the four tests disables the inputs and
    the button for as long as the insert is in flight, with the typed
    values still shown, and every answer enables them again. *)
Theorem form_disabled_while_uploading (s : UI) :
  text s <> "" -> http_source URL_new (source s) -> category s <> "" ->
  (String.length (text s) <= 1000)%nat ->
  exists q resume,
    handleSubmit URL_new s = (setIsUploading true s, Awaiting q resume)
    /\ form_disabled (render_NewFactForm toUpperCase (setIsUploading true s)) = true
    /\ text_value (render_NewFactForm toUpperCase (setIsUploading true s)) = text s
    /\ source_value (render_NewFactForm toUpperCase (setIsUploading true s)) = source s
    /\ category_value (render_NewFactForm toUpperCase (setIsUploading true s)) = category s
    /\ forall (resp : Response) (s' : UI),
         exists s'',
           resume resp s' = Ok s''
           /\ form_disabled (render_NewFactForm toUpperCase s'') = false
           /\ isUploading s'' = false.
Proof.
  intros Ht Hs Hc Hl.
  destruct (handleSubmit_valid URL_new s Ht Hs Hc Hl) as (resume & Hg & Hr).
  eexists _, resume. split; [exact Hg|]. do 4 (split; [reflexivity|]).
  intros resp s'. eexists. split; [apply Hr|].
  by destruct (error resp).
Qed.

(** X5: the number beside the text field is 1000 minus the length of the
    text.  When it is negative the submission is dropped without a
    request; whenever a request is sent it is between 0 and 999. *)
Theorem remaining_counter_guards_submit (s : UI) :
  remaining (render_NewFactForm toUpperCase s) = 1000 - Z.of_nat (String.length (text s))
  /\ (remaining (render_NewFactForm toUpperCase s) < 0 ->
        handleSubmit URL_new s = (s, Finished))
  /\ (forall (q : Request) (resume : Response -> UI -> result UI),
        (handleSubmit URL_new s).2 = Awaiting q resume ->
        0 <= remaining (render_NewFactForm toUpperCase s) <= 999).
Proof.
  split; [reflexivity|]. unfold handleSubmit. simpl.
  destruct (truthy (text s) && isValidHttpUrl URL_new (source s)
            && truthy (category s)
            && bool_decide (String.length (text s) <= 1000)%nat) eqn:Htest.
  - apply submit_test_spec in Htest as (Ht & _ & _ & Hl). split; [lia|].
    intros q resume _. destruct (text s) as [|a t]; [done|]. simpl in *. lia.
  - split; [done|]. intros q resume Hq. discriminate.
Qed.

(** X6: the values the category select offers are the empty one followed
    by the names of [CATEGORIES].  A submission that is accepted with a
    category taken from the select gives, against the reference store, a
    first element that renders: it shows its category as the tag and no
    disputed badge. *)
Theorem form_category_renders (s : UI) (st : Store.t) :
  category s ∈ option_value <$> options (render_NewFactForm toUpperCase s) ->
  text s <> "" -> http_source URL_new (source s) -> category s <> "" ->
  (String.length (text s) <= 1000)%nat ->
  option_value <$> options (render_NewFactForm toUpperCase s) = "" :: (name <$> CATEGORIES)
  /\ exists s3 f v,
       settle (Store.answer st) (handleSubmit URL_new) s = Ok s3
       /\ facts s3 !! 0%nat = Some (Some f)
       /\ Fact.category f = category s
       /\ render_Fact f s3 = Ok v
       /\ tag_text v = category s
       /\ disputed_badge v = false.
Proof.
  intros Hopt Ht Hs Hc Hl.
  assert (Hvals : option_value <$> options (render_NewFactForm toUpperCase s)
                  = "" :: (name <$> CATEGORIES)) by reflexivity.
  split; [exact Hvals|]. rewrite Hvals in Hopt.
  apply elem_of_cons in Hopt as [Hopt|Hopt]; [done|].
  destruct (handleSubmit_valid URL_new s Ht Hs Hc Hl) as (resume & Hg & Hr).
  set (f := Fact.mk (Store.next_id st) (text s) (source s) (category s) 0 0 0).
  set (s3 := setShowForm false (setCategory "" (setSource "" (setText ""
               (setFacts (Some f :: facts (setIsUploading true s))
                  (setIsUploading false (setIsUploading true s))))))).
  destruct (render_Fact_listed f s3 Hopt) as (v & Hv & Hd & Htag & _).
  exists s3, f, v. unfold settle. rewrite Hg, Hr.
  split; [reflexivity|]. split; [reflexivity|]. split; [reflexivity|].
  split; [exact Hv|]. split; [exact Htag|]. by rewrite Hd.
Qed.

(** ** Fetches that overlap *)

(** X7: a fetch is never cancelled and its continuation does not look at
    the category that is current when the answer arrives.  After two
    category changes in a row, the answer to the first request, arriving
    last, replaces the list although the page is on the second category;
    arriving first, it takes the loader away while the second request is
    still in flight. *)
Theorem stale_fetch_overwrites
    (s : UI) (cA cB : string) (respA respB : Response) :
  currentCategory s <> cA -> cA <> cB ->
  error respA = None -> error respB = None ->
  exists qA kA qB kB s1 s2 s3 s4 s3',
    selectCategory cA s = (s1, Awaiting qA kA)
    /\ filters qA = (if bool_decide (cA = "all") then [] else [("category", VStr cA)])
    /\ selectCategory cB s1 = (s2, Awaiting qB kB)
    /\ filters qB = (if bool_decide (cB = "all") then [] else [("category", VStr cB)])
    /\ isLoading s2 = true
    /\ kB respB s2 = Ok s3 /\ facts s3 = Some <$> data respB
    /\ kA respA s3 = Ok s4
    /\ currentCategory s4 = cB /\ facts s4 = Some <$> data respA /\ isLoading s4 = false
    /\ kA respA s2 = Ok s3'
    /\ currentCategory s3' = cB /\ facts s3' = Some <$> data respA /\ isLoading s3' = false.
Proof.
  intros HA HAB HeA HeB.
  destruct (getFacts_request (setCurrentCategory cA s)) as (kA & HgA & HrA).
  destruct (getFacts_request
              (setCurrentCategory cB (setIsLoading true (setCurrentCategory cA s))))
    as (kB & HgB & HrB).
  eexists _, kA, _, kB, _, _, _, _, _. split.
  { unfold selectCategory. rewrite bool_decide_eq_false_2 by done. exact HgA. }
  split; [reflexivity|]. split.
  { unfold selectCategory. simpl.
    rewrite bool_decide_eq_false_2 by done. exact HgB. }
  split; [reflexivity|]. split; [reflexivity|].
  split; [rewrite HrB, HeB; reflexivity|]. split; [reflexivity|].
  split; [rewrite HrA, HeA; reflexivity|]. do 3 (split; [reflexivity|]).
  split; [rewrite HrA, HeA; reflexivity|]. by repeat split.
Qed.

(** ** Votes *)

(** X8: the value a vote writes is computed from the fact the element was
    rendered with, not from the store and not from the state: the request
    is the same in every state, and executing it a second time leaves the
    reference store and its answer as the first execution did.  Two votes
    cast from the same rendered fact raise the stored counter by one. *)
Theorem repeated_vote_adds_one
    (fact stored : Fact.t) (c : VoteColumn) (st : Store.t) :
  NoDup (Fact.id <$> Store.rows st) -> stored ∈ Store.rows st ->
  Fact.id stored = Fact.id fact ->
  exists q,
    (forall s : UI, exists resume,
        handleVote fact c s = (setIsUpdating (Fact.id fact) true s, Awaiting q resume))
    /\ data (Store.answer st q) = [with_column c (get_column c fact + 1) stored]
    /\ Store.exec (Store.exec st q).2 q = Store.exec st q
    /\ (forall f, f ∈ Store.rows (Store.exec (Store.exec st q).2 q).2 ->
          Fact.id f = Fact.id fact -> get_column c f = get_column c fact + 1).
Proof.
  intros Hnd Hin Hid.
  pose (v := get_column c fact + 1).
  pose (w := fun f => if bool_decide (Fact.id f = Fact.id fact)
                      then with_column c v f else f).
  pose (q := mkRequest "facts" (Update (columnName c) v)
               [("id", VNum (Fact.id fact))] true None None).
  assert (H1 : Store.exec st q
               = (mkResponse [with_column c v stored] None,
                  Store.mk (w <$> Store.rows st) (Store.next_id st))).
  { exact (Store_vote st fact stored c Hnd Hin Hid). }
  assert (Hww : forall f, w (w f) = w f).
  { intros f. unfold w. destruct (bool_decide (Fact.id f = Fact.id fact)) eqn:Hb.
    - apply bool_decide_eq_true in Hb.
      rewrite bool_decide_eq_true_2 by (by rewrite (proj1 (with_column_keeps c v f))).
      apply with_column_twice.
    - by rewrite Hb. }
  assert (Hws : w stored = with_column c v stored).
  { unfold w. by rewrite bool_decide_eq_true_2. }
  assert (H2 : Store.exec (Store.mk (w <$> Store.rows st) (Store.next_id st)) q
               = (mkResponse [with_column c v stored] None,
                  Store.mk (w <$> Store.rows st) (Store.next_id st))).
  { unfold q, v.
    rewrite (Store_vote (Store.mk (w <$> Store.rows st) (Store.next_id st))
               fact (w stored) c).
    - fold v. fold w. rewrite Hws, with_column_twice. cbn [Store.rows Store.next_id].
      rewrite <- list_fmap_compose. do 2 f_equal.
      apply list_fmap_ext. intros _ f _. apply Hww.
    - cbn [Store.rows]. unfold w. by rewrite voted_rows_ids.
    - cbn [Store.rows]. by apply list_elem_of_fmap_2.
    - rewrite Hws, <- Hid. apply with_column_keeps. }
  exists q. split.
  { intros s. destruct (handleVote_request fact c s) as (resume & Hg & _).
    exists resume. exact Hg. }
  unfold Store.answer. rewrite H1. cbn [fst snd data].
  split; [reflexivity|]. rewrite H2. split; [reflexivity|].
  cbn [snd Store.rows]. intros f Hf Hfid.
  apply list_elem_of_fmap in Hf as (f0 & -> & _). unfold w in *.
  destruct (bool_decide (Fact.id f0 = Fact.id fact)) eqn:Hb.
  - rewrite get_with_column. by rewrite decide_True.
  - apply bool_decide_eq_false in Hb. done.
Qed.

(** X9: a vote disables the buttons of the element the click came from
    and touches no other element.  The answer enables them again when that
    element is still mounted; when it is not, the answer writes no cell,
    whatever is mounted under the key by then.  Every other element is,
    after the answer, as it was or unmounted.  A fetch that starts unmounts
    every element, so after the answer of a fetch that found the loader up
    all buttons are enabled, also those of a fact whose vote is still in
    flight. *)
Theorem vote_disables_only_its_buttons
    (fact : Fact.t) (c : VoteColumn) (s s' : UI) (resp : Response)
    (n : nat) (b0 : bool) :
  factElements s !! Fact.id fact = Some (mkFactElement n b0) ->
  exists q resume,
    handleVote fact c s = (setIsUpdating (Fact.id fact) true s, Awaiting q resume)
    /\ (forall v, render_Fact fact (setIsUpdating (Fact.id fact) true s) = Ok v ->
          buttons_disabled v = true)
    /\ (forall g : Fact.t, Fact.id g <> Fact.id fact ->
          render_Fact g (setIsUpdating (Fact.id fact) true s) = render_Fact g s)
    /\ (forall s'', resume resp s' = Ok s'' ->
          (mountedAt <$> factElements s' !! Fact.id fact = Some n ->
             (factElements s'' !! Fact.id fact = None
              \/ factElements s'' !! Fact.id fact = Some (mkFactElement n false))
             /\ forall h v, Fact.id h = Fact.id fact -> render_Fact h s'' = Ok v ->
                  buttons_disabled v = false)
          /\ (forall (k : Z) (el : FactElement),
                factElements s' !! k = Some el ->
                k <> Fact.id fact \/ mountedAt el <> n ->
                factElements s'' !! k = None \/ factElements s'' !! k = Some el))
    /\ (forall s0 : UI, factElements (setIsLoading true s0) = ∅)
    /\ (forall (s0 : UI) (respF : Response),
          exists qF resumeF sF,
            getFacts s0 = (setIsLoading true s0, Awaiting qF resumeF)
            /\ resumeF respF (setIsLoading true (setIsUpdating (Fact.id fact) true s)) = Ok sF
            /\ forall (k : Z) (el : FactElement),
                 factElements sF !! k = Some el -> isUpdating el = false).
Proof.
  intros Hme.
  assert (Hn : mountedAt <$> factElements s !! Fact.id fact = Some n)
    by by rewrite Hme.
  destruct (handleVote_request fact c s) as (resume & Hg & Herr & _).
  eexists _, resume. split; [exact Hg|]. split; [|split; [|split; [|split]]].
  - intros v Hv. rewrite (render_Fact_disabled _ _ _ Hv).
    unfold setIsUpdating. rewrite Hn, setIsUpdatingOf_lookup.
    by rewrite decide_True.
  - intros g Hg'. apply render_Fact_same_element.
    unfold setIsUpdating. rewrite Hn, setIsUpdatingOf_lookup.
    rewrite decide_False; [done|tauto].
  - intros s'' Hs''.
    set (s1 := setIsUpdatingOf (Some n) (Fact.id fact) false s').
    assert (Hafter : forall k el, factElements s1 !! k = Some el ->
                       factElements s'' !! k = None \/ factElements s'' !! k = Some el).
    { intros k el Hk. injection Hg as Hres. rewrite <- Hres, Hn in Hs''.
      fold s1 in Hs''. destruct (error resp).
      - injection Hs'' as <-. by right.
      - unfold setFactsWith in Hs''.
        destruct (array_map _ (facts s1)) as [l|]; simpl in Hs''; [|discriminate].
        injection Hs'' as <-. cbn [factElements setFacts]. by apply remount_keeps. }
    split.
    + intros Hsame.
      assert (H1 : factElements s1 !! Fact.id fact = Some (mkFactElement n false)).
      { unfold s1. rewrite setIsUpdatingOf_lookup. by rewrite decide_True. }
      destruct (Hafter _ _ H1) as [Hnone|Hsome]; (split; [tauto|]);
        intros h v Hh Hv; rewrite (render_Fact_disabled _ _ _ Hv), Hh.
      * by rewrite Hnone.
      * by rewrite Hsome.
    + intros k el Hk Hother. apply Hafter. unfold s1.
      rewrite setIsUpdatingOf_lookup. rewrite decide_False; [done|].
      intros [-> Hsame]. rewrite Hk in Hsame. simpl in Hsame.
      destruct Hother as [Hne|Hne]; [done|]. by injection Hsame.
  - intros s0. reflexivity.
  - intros s0 respF. destruct (getFacts_request s0) as (resumeF & HgF & HrF).
    eexists _, resumeF, _. split; [exact HgF|]. split; [apply HrF|].
    intros k el. destruct (error respF); cbn [factElements setIsLoading setFacts alert isLoading facts renderCount].
    + intros Hk. apply remount_elements in Hk as [Hk|[_ ->]]; [|done].
      change ((∅ : gmap Z FactElement) !! k = Some el) in Hk.
      by rewrite lookup_empty in Hk.
    + intros Hk. apply remount_elements in Hk as [Hk|[_ ->]]; [|done].
      change ((∅ : gmap Z FactElement) !! k = Some el) in Hk.
      by rewrite lookup_empty in Hk.
Qed.

(** ** CategoryFilter *)

(** X10: the filter offers ["all"] and then the names of [CATEGORIES], in
    that order.  Choosing the category that is already current sends
    nothing.  Choosing another one through a category button fetches it,
    and against the reference store the list that comes back holds only
    rows of that category and renders. *)
Theorem category_buttons_fetch_a_list_that_renders :
  filter_selects <$> render_CategoryFilter = "all" :: (name <$> CATEGORIES)
  /\ (forall s : UI, selectCategory (currentCategory s) s = (s, Finished))
  /\ (forall (b : FilterButton) (s : UI) (st : Store.t),
        b ∈ render_CategoryFilter -> filter_selects b <> "all" ->
        currentCategory s <> filter_selects b ->
        exists s3 v,
          settle (Store.answer st) (selectCategory (filter_selects b)) s = Ok s3
          /\ currentCategory s3 = filter_selects b
          /\ isLoading s3 = false
          /\ (forall f, Some f ∈ facts s3 ->
                Fact.category f = filter_selects b /\ f ∈ Store.rows st)
          /\ render_FactList s3 = Ok v).
Proof.
  split; [reflexivity|]. split.
  { intros s. unfold selectCategory. by rewrite bool_decide_eq_true_2. }
  intros b s st Hb Hall Hcur. set (c := filter_selects b) in *.
  assert (Hc : c ∈ name <$> CATEGORIES).
  { assert (Hin : c ∈ filter_selects <$> render_CategoryFilter)
      by by apply list_elem_of_fmap_2.
    change (filter_selects <$> render_CategoryFilter)
      with ("all" :: (name <$> CATEGORIES)) in Hin.
    apply elem_of_cons in Hin as [Hin|Hin]; [done|exact Hin]. }
  destruct (getFacts_request (setCurrentCategory c s)) as (resume & Hg & Hr).
  set (s3 := setIsLoading false
               (setFacts (Some <$> fetched c st)
                  (setIsLoading true (setCurrentCategory c s)))).
  assert (Hrows : forall f, Some f ∈ facts s3 -> Fact.category f = c /\ f ∈ Store.rows st).
  { intros f Hf. simpl in Hf. apply list_elem_of_fmap in Hf as (f' & [= <-] & Hf').
    apply fetched_elem_of in Hf' as [Hrow [Hbad|Hcat]]; [done|done]. }
  destruct (render_FactList_total s3) as [v Hv].
  { apply Forall_forall. intros e He. simpl in He.
    apply list_elem_of_fmap in He as (f & -> & Hf). exists f. split; [done|].
    apply fetched_elem_of in Hf as [_ [Hbad|Hcat]]; [done|by rewrite Hcat]. }
  exists s3, v. split.
  { unfold settle, selectCategory. rewrite bool_decide_eq_false_2 by done.
    rewrite Hg. unfold Store.answer. simpl. rewrite Store_getFacts, Hr. reflexivity. }
  split; [reflexivity|]. split; [reflexivity|]. split; [exact Hrows|exact Hv].
Qed.

(** ** Answers without a row *)

(** X11: the patch of a vote reads [f.id] of every element.  An answer
    without error that meets a list holding [undefined] throws; one that
    carries no row puts [undefined] where the voted fact was, and such a
    list no longer renders. *)
Theorem vote_answer_meets_undefined
    (fact : Fact.t) (c : VoteColumn) (s s' : UI) (resp : Response) :
  error resp = None ->
  exists q resume,
    handleVote fact c s = (setIsUpdating (Fact.id fact) true s, Awaiting q resume)
    /\ (None ∈ facts s' -> resume resp s' = Throw TypeError)
    /\ (data resp = [] -> Forall is_Some (facts s') -> Some fact ∈ facts s' ->
        exists s'',
          resume resp s' = Ok s''
          /\ length (facts s'') = length (facts s')
          /\ None ∈ facts s''
          /\ render_FactList s'' = Throw TypeError).
Proof.
  intros He.
  destruct (handleVote_request fact c s) as (resume & Hg & _ & Hok).
  exists (mkRequest "facts" (Update (columnName c) (get_column c fact + 1))
            [("id", VNum (Fact.id fact))] true None None), resume.
  split; [exact Hg|]. split.
  - intros Hnone. injection Hg as Hres. rewrite <- Hres, He.
    unfold setFactsWith. cbn [facts setIsUpdating].
    by rewrite (array_map_Throw _ _ None Hnone).
  - intros Hd Hdef Hin. eexists. split; [by apply Hok|].
    assert (Hnone : None ∈ patched fact (data resp !! 0%nat) <$> facts s').
    { rewrite Hd. apply list_elem_of_fmap. exists (Some fact). split; [|done].
      simpl. by rewrite bool_decide_eq_true_2. }
    split; [simpl; by rewrite length_fmap|]. split; [exact Hnone|].
    by apply render_FactList_undefined.
Qed.

(** X12: an insert answered without error and without a row puts
    [undefined] in front of the list; the form is cleared and closed as
    after any answer, and the list no longer renders. *)
Theorem insert_answer_without_row (s s' : UI) (resp : Response) :
  text s <> "" -> http_source URL_new (source s) -> category s <> "" ->
  (String.length (text s) <= 1000)%nat ->
  error resp = None -> data resp = [] ->
  exists q resume s'',
    handleSubmit URL_new s = (setIsUploading true s, Awaiting q resume)
    /\ resume resp s' = Ok s''
    /\ facts s'' = None :: facts s'
    /\ text s'' = "" /\ source s'' = "" /\ category s'' = "" /\ showForm s'' = false
    /\ render_FactList s'' = Throw TypeError.
Proof.
  intros Ht Hs Hc Hl He Hd.
  destruct (handleSubmit_valid URL_new s Ht Hs Hc Hl) as (resume & Hg & Hr).
  eexists _, resume, _. split; [exact Hg|]. split; [apply Hr|].
  rewrite He, Hd. simpl. do 5 (split; [reflexivity|]).
  apply render_FactList_undefined. simpl. by left.
Qed.

(** ** Votes and the disputed badge *)

(** X13: on a page whose facts are rows of the reference store, a vote
    shows the voted fact with one counter raised, and the badge can only
    move one way: a false vote never removes it and sets it exactly when
    the false votes had reached the two other counters together; a vote for
    one of the two other counters never sets it and leaves it exactly
    when the false votes are more than one ahead. *)
Theorem votes_move_disputed_one_way
    (sys : System) (fact : Fact.t) (c : VoteColumn) :
  in_sync sys -> Some fact ∈ facts (page sys) ->
  exists sys' shown,
    run (handleVote fact c) sys = Ok sys'
    /\ (forall (i : nat) (f : Fact.t),
          facts (page sys) !! i = Some (Some f) -> Fact.id f = Fact.id fact ->
          facts (page sys') !! i = Some (Some shown))
    /\ (c = VotesFalse ->
          (isDisputed fact = true -> isDisputed shown = true)
          /\ (isDisputed shown = true <->
                Fact.votesInteresting fact + Fact.votesMindblowing fact
                <= Fact.votesFalse fact))
    /\ (c <> VotesFalse ->
          (isDisputed fact = false -> isDisputed shown = false)
          /\ (isDisputed shown = true <->
                Fact.votesInteresting fact + Fact.votesMindblowing fact + 1
                < Fact.votesFalse fact)).
Proof.
  intros Hsync Hvis.
  pose proof (run_handleVote sys fact c Hsync Hvis) as Hrun. simpl in Hrun.
  eexists _, (with_column c (get_column c fact + 1) fact).
  split; [exact Hrun|]. split.
  { intros i f Hi Hid. simpl. by apply (patched_lookup_same fact _ _ i f). }
  unfold isDisputed. split.
  - intros ->. simpl. rewrite !Z.ltb_lt. lia.
  - intros Hc. destruct c; [| |done]; simpl; rewrite !Z.ltb_lt, !Z.ltb_ge; lia.
Qed.

(** ** What an answer leaves alone *)

(** X14: the code that runs on an answer touches only its own cells.  The
    answer to a fetch or to a vote changes nothing of what is typed in the
    form and does not open or close it; the answer to a vote does not
    touch the loading flag and raises no alert; the answer to an insert
    touches neither the loading flag nor the category and raises no alert.
    The answer to a fetch or to an insert writes no [isUpdating] cell:
    every element mounted afterwards is one that was mounted before, as it
    was, or a new one with its buttons enabled. *)
Theorem answers_leave_other_cells
    (fact : Fact.t) (c : VoteColumn) (s s' : UI) (resp : Response) :
  (exists q resume,
     getFacts s = (setIsLoading true s, Awaiting q resume)
     /\ forall s'', resume resp s' = Ok s'' ->
          showForm s'' = showForm s' /\ text s'' = text s'
          /\ source s'' = source s' /\ category s'' = category s'
          /\ isUploading s'' = isUploading s'
          /\ currentCategory s'' = currentCategory s'
          /\ forall (k : Z) (el : FactElement),
               factElements s'' !! k = Some el ->
               factElements s' !! k = Some el \/ isUpdating el = false)
  /\ (exists q resume,
        handleVote fact c s = (setIsUpdating (Fact.id fact) true s, Awaiting q resume)
        /\ forall s'', resume resp s' = Ok s'' ->
             showForm s'' = showForm s' /\ text s'' = text s'
             /\ source s'' = source s' /\ category s'' = category s'
             /\ isUploading s'' = isUploading s'
             /\ isLoading s'' = isLoading s'
             /\ currentCategory s'' = currentCategory s'
             /\ alerts s'' = alerts s')
  /\ (forall q resume,
        (handleSubmit URL_new s).2 = Awaiting q resume ->
        forall s'', resume resp s' = Ok s'' ->
          isLoading s'' = isLoading s'
          /\ currentCategory s'' = currentCategory s'
          /\ alerts s'' = alerts s'
          /\ forall (k : Z) (el : FactElement),
               factElements s'' !! k = Some el ->
               factElements s' !! k = Some el \/ isUpdating el = false).
Proof.
  split; [|split].
  - eexists _, _. split; [reflexivity|]. intros s'' [= <-].
    do 6 (split; [by destruct (error resp)|]).
    intros k el Hk.
    destruct (error resp); cbn [factElements setIsLoading setFacts alert] in Hk.
    + apply remount_elements in Hk as [Hk|[_ ->]]; [by left|by right].
    + apply remount_elements in Hk as [Hk|[_ ->]]; [|by right].
      apply remount_elements in Hk as [Hk|[_ ->]]; [by left|by right].
  - eexists _, _. split; [reflexivity|]. intros s'' Hs''. cbv beta in Hs''.
    destruct (error resp).
    + by injection Hs'' as <-.
    + unfold setFactsWith in Hs''. cbn [facts setIsUpdatingOf] in Hs''.
      destruct (array_map _ (facts s')); simpl in Hs''; [|discriminate].
      by injection Hs'' as <-.
  - intros q resume. unfold handleSubmit.
    destruct (truthy (text s) && isValidHttpUrl URL_new (source s)
              && truthy (category s)
              && bool_decide (String.length (text s) <= 1000)%nat); [|discriminate].
    simpl. intros [= _ <-] s'' Hs''.
    destruct (error resp); simpl in Hs''; injection Hs'' as <-;
      (do 3 (split; [reflexivity|])); intros k el Hk;
      cbn [factElements setShowForm setCategory setSource setText setFacts
           setIsUploading] in Hk.
    + by left.
    + apply remount_elements in Hk as [Hk|[_ ->]]; [by left|by right].
Qed.

End Page.

(** ** More of the page on the sample data *)

Lemma sample_text_short : (String.length (text sample_page) <= 1000)%nat.
Proof. apply Nat.leb_le. vm_compute. reflexivity. Defined.

(** X4 on the sample page. *)
Lemma form_disabled_sample :
  exists q resume,
    handleSubmit SampleBrowser.URL_new sample_page
      = (setIsUploading true sample_page, Awaiting q resume)
    /\ form_disabled (render_NewFactForm ascii_upper (setIsUploading true sample_page)) = true
    /\ exists s'', resume offline sample_page = Ok s''
                   /\ form_disabled (render_NewFactForm ascii_upper s'') = false.
Proof.
  destruct (form_disabled_while_uploading SampleBrowser.URL_new ascii_upper sample_page
              ltac:(discriminate) sample_source_is_http ltac:(discriminate)
              sample_text_short)
    as (q & resume & Hg & Hd & _ & _ & _ & Hafter).
  destruct (Hafter offline sample_page) as (s'' & Hr & He & _).
  exists q, resume. split; [exact Hg|]. split; [exact Hd|]. by exists s''.
Defined.

Lemma sample_category_offered :
  category sample_page
  ∈ option_value <$> options (render_NewFactForm ascii_upper sample_page).
Proof. simpl. do 2 right. left. Defined.

(** X6 on the sample page: the science fact that is submitted renders. *)
Lemma form_category_renders_sample :
  exists s3 f v,
    settle (Store.answer sample_store) (handleSubmit SampleBrowser.URL_new) sample_page
      = Ok s3
    /\ facts s3 !! 0%nat = Some (Some f)
    /\ render_Fact f s3 = Ok v
    /\ tag_text v = "science"
    /\ disputed_badge v = false.
Proof.
  destruct (form_category_renders SampleBrowser.URL_new ascii_upper
              sample_page sample_store sample_category_offered
              ltac:(discriminate) sample_source_is_http ltac:(discriminate)
              sample_text_short)
    as (_ & s3 & f & v & H1 & H2 & _ & H4 & H5 & H6).
  exists s3, f, v. by repeat split.
Defined.

(** X7 on the sample page: science is chosen, then finance; the science
    rows arrive last and stay on the finance page. *)
Lemma stale_fetch_sample :
  exists s4,
    currentCategory s4 = "finance"
    /\ facts s4 = [Some bats; Some moon]
    /\ isLoading s4 = false.
Proof.
  destruct (stale_fetch_overwrites sample_page "science" "finance"
              (mkResponse [bats; moon] None) (mkResponse [coins] None)
              ltac:(discriminate) ltac:(discriminate) eq_refl eq_refl)
    as (qA & kA & qB & kB & s1 & s2 & s3 & s4 & s3' & _ & _ & _ & _ & _ & _ & _ & _
        & H1 & H2 & H3 & _).
  exists s4. by repeat split.
Defined.

(** X8 on the sample store: the same false vote on the fact 7, sent twice. *)
Lemma repeated_vote_sample :
  exists q,
    data (Store.answer sample_store q) = [with_column VotesFalse 3 bats]
    /\ Store.exec (Store.exec sample_store q).2 q = Store.exec sample_store q.
Proof.
  destruct (repeated_vote_adds_one bats bats VotesFalse sample_store
              sample_store_unique bats_stored eq_refl)
    as (q & _ & H1 & H2 & _).
  exists q. split; [exact H1|exact H2].
Defined.

(** X11 on a list that holds [undefined]. *)
Lemma vote_answer_undefined_sample :
  exists resume,
    (handleVote bats VotesFalse sample_page).2
      = Awaiting (mkRequest "facts" (Update "votesFalse" 3) [("id", VNum 7)] true None None)
                 resume
    /\ resume (mkResponse [with_column VotesFalse 3 bats] None)
              (setFacts [Some coins; None; Some bats] sample_page)
       = Throw TypeError.
Proof.
  destruct (vote_answer_meets_undefined bats VotesFalse sample_page
              (setFacts [Some coins; None; Some bats] sample_page)
              (mkResponse [with_column VotesFalse 3 bats] None) eq_refl)
    as (q & resume & Hg & Hthrow & _).
  injection Hg as <- <-. eexists. split; [reflexivity|].
  apply Hthrow. simpl. right. left.
Defined.

(** X12 on the sample page. *)
Lemma insert_answer_without_row_sample :
  exists q resume s'',
    handleSubmit SampleBrowser.URL_new sample_page
      = (setIsUploading true sample_page, Awaiting q resume)
    /\ resume (mkResponse [] None) sample_page = Ok s''
    /\ facts s'' = [None; Some coins; Some bats; Some moon]
    /\ render_FactList s'' = Throw TypeError.
Proof.
  destruct (insert_answer_without_row SampleBrowser.URL_new sample_page sample_page
              (mkResponse [] None)
              ltac:(discriminate) sample_source_is_http ltac:(discriminate)
              sample_text_short eq_refl eq_refl)
    as (q & resume & s'' & Hg & Hr & Hf & _ & _ & _ & _ & Hthrow).
  exists q, resume, s''. by repeat split.
Defined.

(** X13 on the sample page: a third false vote on a fact with five votes
    for it does not dispute it. *)
Lemma votes_move_disputed_sample :
  exists sys' shown,
    run (handleVote bats VotesFalse) (mkSystem sample_page sample_store) = Ok sys'
    /\ facts (page sys') !! 1%nat = Some (Some shown)
    /\ isDisputed shown = false.
Proof.
  destruct (votes_move_disputed_one_way (mkSystem sample_page sample_store)
              bats VotesFalse sample_in_sync ltac:(simpl; right; left))
    as (sys' & shown & Hrun & Hshown & Hfalse & _).
  exists sys', shown. split; [exact Hrun|].
  split; [apply (Hshown 1%nat bats); reflexivity|].
  destruct (Hfalse eq_refl) as [_ Hiff].
  destruct (isDisputed shown); [|reflexivity].
  exfalso. destruct Hiff as [Hlt _]. specialize (Hlt eq_refl). simpl in Hlt. lia.
Defined.

(** The rest on the sample data. *)
Example page_samples :
  (exists v, render_App ascii_upper sample_page = Ok v
             /\ button_label (header_view v) = "❌ Close"
             /\ option_label <$> (default [] (options <$> form_view v))
                = ["Choose category:"; "TECHNOLOGY"; "SCIENCE"; "FINANCE"; "SOCIETY";
                   "ENTERTAINMENT"; "HEALTH"; "HISTORY"; "NEWS"]
             /\ (remaining <$> form_view v) = Some 986)
  /\ text (toggleForm (toggleForm sample_page)) = ""
  /\ render_FactList initial = Ok NoFacts.
Proof. split; [eexists; repeat split; vm_compute; reflexivity|]. split; reflexivity. Qed.

(** X9 on the sample page: the buttons of the fact 7 while its vote is in
    flight. *)
Lemma vote_disables_sample :
  exists q resume v,
    handleVote bats VotesFalse sample_page
      = (setIsUpdating 7 true sample_page, Awaiting q resume)
    /\ render_Fact bats (setIsUpdating 7 true sample_page) = Ok v
    /\ buttons_disabled v = true.
Proof.
  destruct (vote_disables_only_its_buttons bats VotesFalse sample_page sample_page
              offline 0 false ltac:(vm_compute; reflexivity))
    as (q & resume & Hg & Hdis & _).
  destruct (render_Fact_listed bats (setIsUpdating 7 true sample_page)
              ltac:(simpl; right; left)) as (v & Hv & _).
  exists q, resume, v. split; [exact Hg|]. split; [exact Hv|]. by apply Hdis.
Defined.
